(** * video-mcp: tool handlers, resource handlers and the REST client

    A shallow embedding of [internal/client/client.go], the tool handlers
    (package [handlers], [RegisterTools] and the [make*] factories) and
    [internal/handlers/resources.go].

    Conventions of the embedding:
    - a Go function returning [(T, error)] returns [result T];
    - the only effect of the program is the outbound HTTP call
      [c.httpClient.Do]; it is modelled by the monad [M], which threads a
      [World] holding the upstream's answer to every request and the log of
      the requests sent so far;
    - the functions of Go's standard library and of mcp-go that the code
      calls but whose code is not part of the repository (JSON codec, URL
      parsing and query encoding) are the fields of the class [Runtime];
      every theorem holds for every runtime. *)

From Stdlib Require Import ZArith Ascii DecimalString SpecFloat.
From stdpp Require Import gmap strings list.

Open Scope Z_scope.

(** ** Strings *)

Module Str.

(** [strings.HasPrefix]. *)
Fixpoint HasPrefix (s prefix : string) {struct prefix} : bool :=
  match prefix, s with
  | EmptyString, _ => true
  | String a p, String b s' => if decide (a = b) then HasPrefix s' p else false
  | String _ _, EmptyString => false
  end.

(** [strings.Contains]: [substr] occurs in [s]. *)
Fixpoint Contains (s substr : string) : bool :=
  HasPrefix s substr ||
  match s with
  | EmptyString => false
  | String _ s' => Contains s' substr
  end.

End Str.

(** ** Go values the code formats or converts *)

(** [fmt.Sprintf("%d", n)]: the decimal rendering of an [int]. *)
Definition fmt_d (n : Z) : string := NilZero.string_of_int (Z.to_int n).

(** The line feed the format strings write as a backslash and an n. *)
Definition LF : string := String (Ascii.ascii_of_nat 10) "".

(** [fmt.Sprintf("%v", b)] for a [bool]. *)
Definition fmt_v_bool (b : bool) : string := if b then "true" else "false".

(** [float64]: an IEEE 754 binary64 datum. JSON numbers of an argument map
    arrive as [float64]. *)
Definition float64 : Type := spec_float.

Definition minInt64 : Z := - 2 ^ 63.
Definition maxInt64 : Z := 2 ^ 63 - 1.

(** The conversion [int(f)] of a [float64]: the fraction is discarded
    (truncation towards zero). Go leaves the result open when the value is
    not representable (NaN, infinities, out of range); the model takes the
    value the amd64 instruction CVTTSD2SQ yields, [minInt64]. The theorems
    below speak of [int_of_float64 f] and do not depend on that choice. *)
Definition int_of_float64 (f : float64) : Z :=
  match f with
  | S754_zero _ => 0
  | S754_finite s m e =>
      let mag := if 0 <=? e then Z.shiftl (Z.pos m) e else Z.shiftr (Z.pos m) (- e) in
      let v := if s then - mag else mag in
      if (minInt64 <=? v) && (v <=? maxInt64) then v else minInt64
  | S754_infinity _ | S754_nan => minInt64
  end.

(** [error]: [errorString] is what [fmt.Errorf] without [%w] (and the
    libraries) return, [wrapError] what [fmt.Errorf] with [%w] returns. *)
Inductive error : Type :=
  | errorString (msg : string)
  | wrapError (msg : string) (err : error).

(** [err.Error()], also what [%v] prints for an error. *)
Definition Error (e : error) : string :=
  match e with
  | errorString msg => msg
  | wrapError msg _ => msg
  end.

(** [errors.Unwrap]. *)
Definition Unwrap (e : error) : option error :=
  match e with
  | errorString _ => None
  | wrapError _ err => Some err
  end.

(** [fmt.Errorf(prefix + "%w", err)]. *)
Definition Errorf_w (prefix : string) (err : error) : error :=
  wrapError (prefix +:+ Error err) err.

(** A Go result pair [(T, error)] with exactly one side set. *)
Inductive result (T : Type) : Type :=
  | Ok (v : T)
  | Err (e : error).
Arguments Ok {T} v.
Arguments Err {T} e.

(** ** Package client: the data model ([client.go]) *)

(** Go structs are records; a field [*T] is an [option T], a slice a list,
    an [int] an integer. Each struct lives in a module of its name, so
    that [Session.Status s] reads like Go's [s.Status]. *)

Module Session.
Record t : Type := mk {
  ID : string;
  Name : string;
  SessionType : string;
  Status : string;
  ScheduledStart : option string;
  ActualStart : option string;
  ActualEnd : option string;
  Opponent : option string;
  Location : option string;
  ClipCount : Z;
  TagCount : Z;
  TotalDurationSeconds : Z;
  CreatedAt : string;
  UpdatedAt : string }.
(** The zero value [var session Session]. *)
Definition zero : t := mk "" "" "" "" None None None None None 0 0 0 "" "".
End Session.

Module Clip.
Record t : Type := mk {
  ID : string;
  SessionID : string;
  ChannelID : string;
  Title : option string;
  StartTime : string;
  EndTime : string;
  DurationSeconds : float64;
  Status : string;
  IsFavorite : bool;
  ViewCount : Z;
  CreatedAt : string }.
Definition zero : t := mk "" "" "" None "" "" (S754_zero false) "" false 0 "".
End Clip.

Module Channel.
Record t : Type := mk {
  ID : string;
  Name : string;
  Description : option string;
  InputType : option string;
  InputURL : option string;
  Resolution : option string;
  Framerate : option Z;
  Status : string;
  LastSeenAt : option string;
  ErrorMessage : option string;
  CreatedAt : string }.
Definition zero : t := mk "" "" None None None None None "" None None "".
End Channel.

Module Tag.
Record t : Type := mk {
  ID : string;
  ClipID : string;
  SessionID : string;
  Quarter : option Z;
  Down : option Z;
  Distance : option Z;
  PlayType : option string;
  Formation : option string;
  Result : option string;
  YardsGained : option Z;
  Labels : list string;
  Notes : option string;
  IsImportant : bool;
  IsReviewed : bool;
  CreatedAt : string }.
Definition zero : t :=
  mk "" "" "" None None None None None None None [] None false false "".
End Tag.

Module PaginatedResponse.
Record t (T : Type) : Type := mk {
  Data : list T;
  Total : Z;
  Limit : Z;
  Offset : Z }.
Arguments mk {T} _ _ _ _.
Arguments Data {T} _.
Arguments Total {T} _.
Arguments Limit {T} _.
Arguments Offset {T} _.
End PaginatedResponse.

Module ListSessionsParams.
Record t : Type := mk {
  Status : string;
  SessionType : string;
  Limit : Z;
  Offset : Z }.
End ListSessionsParams.

Module CreateSessionRequest.
Record t : Type := mk {
  Name : string;
  SessionType : string;
  ScheduledStart : option string;
  Opponent : option string;
  Location : option string }.
End CreateSessionRequest.

Module ListClipsParams.
Record t : Type := mk {
  SessionID : string;
  ChannelID : string;
  Status : string;
  Favorite : option bool;
  Search : string;
  Limit : Z;
  Offset : Z }.
End ListClipsParams.

Module ListTagsParams.
Record t : Type := mk {
  SessionID : string;
  ClipID : string;
  PlayType : string;
  IsImportant : option bool;
  IsReviewed : option bool;
  Limit : Z;
  Offset : Z }.
End ListTagsParams.

Module CreateTagRequest.
Record t : Type := mk {
  ClipID : string;
  SessionID : string;
  Quarter : option Z;
  Down : option Z;
  Distance : option Z;
  PlayType : option string;
  Formation : option string;
  Result : option string;
  YardsGained : option Z;
  Labels : list string;
  Notes : option string }.
End CreateTagRequest.

(** ** HTTP *)

(** [url.Values]: a map from a key to its values; [query.Set(k, v)]
    replaces the values of [k] by the single [v]. *)
Abbreviation Values := (gmap string (list string)).

Definition Values_Set (key value : string) (query : Values) : Values :=
  <[key := [value]]> query.

(** The part of an [*http.Request] the client sets. *)
Record Request : Type := mkRequest {
  Method : string;
  URL : string;
  ReqBody : option string;
  Header : list (string * string) }.

(** The part of an [*http.Response] the client reads; [Body] is what
    reading [resp.Body] to its end yields. *)
Record Response : Type := mkResponse {
  StatusCode : Z;
  Body : string }.

(** [World]: what [httpClient.Do] returns for each request (a response, or
    the transport's error: connection refused, timeout, cancelled context),
    and the requests sent so far, oldest first. *)
Record World : Type := mkWorld {
  upstream : Request -> result Response;
  sent : list Request }.

(** Computations that may call the upstream. *)
Definition M (A : Type) : Type := World -> A * World.

Definition ret {A : Type} (a : A) : M A := fun w => (a, w).

Definition bind {A B : Type} (m : M A) (k : A -> M B) : M B :=
  fun w => let '(a, w') := m w in k a w'.

Notation "x <- m ;; k" := (bind m (fun x => k))
  (at level 100, m at next level, right associativity).

(** [c.httpClient.Do(req)]. *)
Definition Do (req : Request) : M (result Response) :=
  fun w => (upstream w req, mkWorld (upstream w) (sent w ++ [req])).

(** Running a computation against an upstream, from an empty log: the
    value returned and the requests sent. *)
Definition run {A : Type} (m : M A) (up : Request -> result Response) : A * list Request :=
  let '(a, w) := m (mkWorld up []) in (a, sent w).

(** ** The libraries the client calls *)

(** The JSON codec of a Go type: [json.NewDecoder(r).Decode(&v)] applied
    to a body and a zero [v], and [json.MarshalIndent(v, "", "  ")] with
    its error dropped, as every call site does. *)
Class Json (T : Type) : Type := {
  Decode : string -> result T;
  MarshalIndent : T -> string }.

(** What [post] receives as [body interface{}] when it is not nil. *)
Inductive PostBody : Type :=
  | BodyCreateSession (req : CreateSessionRequest.t)
  | BodyCreateTag (req : CreateTagRequest.t).

Class Runtime : Type := {
  (** the error of [url.Parse], which is the one way
      [http.NewRequestWithContext] fails for the methods GET and POST *)
  url_Parse_error : string -> option error;
  (** [url.Values.Encode] *)
  Values_Encode : Values -> string;
  (** [json.Marshal] of a request body *)
  json_Marshal : PostBody -> result string;
  json_Session :: Json Session.t;
  json_Clip :: Json Clip.t;
  json_Channel :: Json Channel.t;
  json_Tag :: Json Tag.t;
  json_Paginated :: forall T : Type, Json T -> Json (PaginatedResponse.t T) }.

(** ** Package client: the operations ([client.go]) *)

(** [Client]: the base URL; its [httpClient] is the [World]'s upstream. *)
Record Client : Type := mkClient { baseURL : string }.

Definition New (baseURL : string) : Client := mkClient baseURL.

Section Client.
Context {rt : Runtime}.

(** [http.NewRequestWithContext(ctx, method, url, body)] for a valid
    method and a non-nil context. *)
Definition NewRequestWithContext (method url : string) (body : option string)
  : result Request :=
  match url_Parse_error url with
  | Some err => Err err
  | None => Ok (mkRequest method url body [])
  end.

(** [req.Header.Set(key, value)]. *)
Definition Header_Set (key value : string) (req : Request) : Request :=
  mkRequest (Method req) (URL req) (ReqBody req)
    ((key, value) :: filter (fun kv => kv.1 ≠ key) (Header req)).

(** [doRequest]. Every caller passes a non-nil [result], the address of a
    zero value of the type to decode; the model returns the decoded value
    in place of writing through the pointer. *)
Definition doRequest {T : Type} `{Json T} (req : Request) : M (result T) :=
  r <- Do req ;;
  match r with
  | Err err => ret (Err (Errorf_w "request failed: " err))
  | Ok resp =>
      if 400 <=? StatusCode resp then
        ret (Err (errorString
                    ("API error " +:+ fmt_d (StatusCode resp) +:+ ": " +:+ Body resp)))
      else
        match Decode (Body resp) with
        | Err err => ret (Err (Errorf_w "failed to decode response: " err))
        | Ok v => ret (Ok v)
        end
  end.

(** [get]; a nil [query] is the empty map. *)
Definition get {T : Type} `{Json T} (c : Client) (path : string) (query : Values)
  : M (result T) :=
  let u := baseURL c +:+ path in
  let u := if (0 <? size query)%nat then u +:+ "?" +:+ Values_Encode query else u in
  match NewRequestWithContext "GET" u None with
  | Err err => ret (Err err)
  | Ok req => doRequest req
  end.

(** [post]; [body] is [None] for Go's nil. *)
Definition post {T : Type} `{Json T} (c : Client) (path : string)
    (body : option PostBody) : M (result T) :=
  let bodyReader : result (option string) :=
    match body with
    | Some b =>
        match json_Marshal b with
        | Err err => Err err
        | Ok data => Ok (Some data)
        end
    | None => Ok None
    end in
  match bodyReader with
  | Err err => ret (Err err)
  | Ok bodyReader =>
      match NewRequestWithContext "POST" (baseURL c +:+ path) bodyReader with
      | Err err => ret (Err err)
      | Ok req => doRequest (Header_Set "Content-Type" "application/json" req)
      end
  end.

(** The query [ListSessions] builds before it calls [get]. *)
Definition ListSessions_query (params : ListSessionsParams.t) : Values :=
  let query : Values := ∅ in
  let query := if bool_decide (ListSessionsParams.Status params ≠ "")
               then Values_Set "status" (ListSessionsParams.Status params) query
               else query in
  let query := if bool_decide (ListSessionsParams.SessionType params ≠ "")
               then Values_Set "session_type" (ListSessionsParams.SessionType params) query
               else query in
  let query := if 0 <? ListSessionsParams.Limit params
               then Values_Set "limit" (fmt_d (ListSessionsParams.Limit params)) query
               else query in
  let query := if 0 <? ListSessionsParams.Offset params
               then Values_Set "offset" (fmt_d (ListSessionsParams.Offset params)) query
               else query in
  query.

Definition ListSessions (c : Client) (params : ListSessionsParams.t)
  : M (result (PaginatedResponse.t Session.t)) :=
  get c "/api/v1/sessions" (ListSessions_query params).

Definition GetSession (c : Client) (id : string) : M (result Session.t) :=
  get c ("/api/v1/sessions/" +:+ id) ∅.

Definition CreateSession (c : Client) (req : CreateSessionRequest.t)
  : M (result Session.t) :=
  post c "/api/v1/sessions" (Some (BodyCreateSession req)).

Definition StartSession (c : Client) (id : string) : M (result Session.t) :=
  post c ("/api/v1/sessions/" +:+ id +:+ "/start") None.

Definition PauseSession (c : Client) (id : string) : M (result Session.t) :=
  post c ("/api/v1/sessions/" +:+ id +:+ "/pause") None.

Definition CompleteSession (c : Client) (id : string) : M (result Session.t) :=
  post c ("/api/v1/sessions/" +:+ id +:+ "/complete") None.

(** The query [ListClips] builds. *)
Definition ListClips_query (params : ListClipsParams.t) : Values :=
  let query : Values := ∅ in
  let query := if bool_decide (ListClipsParams.SessionID params ≠ "")
               then Values_Set "session_id" (ListClipsParams.SessionID params) query
               else query in
  let query := if bool_decide (ListClipsParams.ChannelID params ≠ "")
               then Values_Set "channel_id" (ListClipsParams.ChannelID params) query
               else query in
  let query := if bool_decide (ListClipsParams.Status params ≠ "")
               then Values_Set "status" (ListClipsParams.Status params) query
               else query in
  let query := match ListClipsParams.Favorite params with
               | Some favorite => Values_Set "favorite" (fmt_v_bool favorite) query
               | None => query
               end in
  let query := if bool_decide (ListClipsParams.Search params ≠ "")
               then Values_Set "search" (ListClipsParams.Search params) query
               else query in
  let query := if 0 <? ListClipsParams.Limit params
               then Values_Set "limit" (fmt_d (ListClipsParams.Limit params)) query
               else query in
  let query := if 0 <? ListClipsParams.Offset params
               then Values_Set "offset" (fmt_d (ListClipsParams.Offset params)) query
               else query in
  query.

Definition ListClips (c : Client) (params : ListClipsParams.t)
  : M (result (PaginatedResponse.t Clip.t)) :=
  get c "/api/v1/clips" (ListClips_query params).

Definition GetClip (c : Client) (id : string) : M (result Clip.t) :=
  get c ("/api/v1/clips/" +:+ id) ∅.

Definition FavoriteClip (c : Client) (id : string) : M (result Clip.t) :=
  post c ("/api/v1/clips/" +:+ id +:+ "/favorite") None.

Definition ListChannels (c : Client) : M (result (PaginatedResponse.t Channel.t)) :=
  get c "/api/v1/channels" ∅.

Definition ActivateChannel (c : Client) (id : string) : M (result Channel.t) :=
  post c ("/api/v1/channels/" +:+ id +:+ "/activate") None.

Definition DeactivateChannel (c : Client) (id : string) : M (result Channel.t) :=
  post c ("/api/v1/channels/" +:+ id +:+ "/deactivate") None.

(** The query [ListTags] builds; [Offset] is not forwarded. *)
Definition ListTags_query (params : ListTagsParams.t) : Values :=
  let query : Values := ∅ in
  let query := if bool_decide (ListTagsParams.SessionID params ≠ "")
               then Values_Set "session_id" (ListTagsParams.SessionID params) query
               else query in
  let query := if bool_decide (ListTagsParams.ClipID params ≠ "")
               then Values_Set "clip_id" (ListTagsParams.ClipID params) query
               else query in
  let query := if bool_decide (ListTagsParams.PlayType params ≠ "")
               then Values_Set "play_type" (ListTagsParams.PlayType params) query
               else query in
  let query := match ListTagsParams.IsImportant params with
               | Some isImportant => Values_Set "is_important" (fmt_v_bool isImportant) query
               | None => query
               end in
  let query := match ListTagsParams.IsReviewed params with
               | Some isReviewed => Values_Set "is_reviewed" (fmt_v_bool isReviewed) query
               | None => query
               end in
  let query := if 0 <? ListTagsParams.Limit params
               then Values_Set "limit" (fmt_d (ListTagsParams.Limit params)) query
               else query in
  query.

Definition ListTags (c : Client) (params : ListTagsParams.t)
  : M (result (PaginatedResponse.t Tag.t)) :=
  get c "/api/v1/tags" (ListTags_query params).

Definition CreateTag (c : Client) (req : CreateTagRequest.t) : M (result Tag.t) :=
  post c "/api/v1/tags" (Some (BodyCreateTag req)).

End Client.

(** ** The protocol library's types (mcp-go) *)

(** A value of type [interface{}] in an argument map, as [encoding/json]
    decodes a JSON document: nil, bool, float64, string, slice, map. *)
#[warnings="-register-all"] Inductive value : Type :=
  | VNil
  | VBool (b : bool)
  | VNumber (f : float64)
  | VString (s : string)
  | VArray (elems : list value)
  | VObject (fields : list (string * value)).

(** [mcp.CallToolRequest]; the handlers read [req.Params.Arguments]. *)
Record CallToolRequest : Type := mkCallToolRequest {
  Arguments : gmap string value }.

(** [mcp.TextContent]. *)
Record TextContent : Type := mkTextContent {
  Type_ : string;
  Text : string }.

(** [mcp.CallToolResult]. *)
Record CallToolResult : Type := mkCallToolResult {
  Content : list TextContent;
  IsError : bool }.

(** [mcp.NewToolResultText] and [mcp.NewToolResultError]. *)
Definition NewToolResultText (text : string) : CallToolResult :=
  mkCallToolResult [mkTextContent "text" text] false.

Definition NewToolResultError (text : string) : CallToolResult :=
  mkCallToolResult [mkTextContent "text" text] true.

(** What a tool handler returns: a pointer to an [mcp.CallToolResult] and
    an [error], either of which may be nil. *)
Definition ToolReturn : Type := option CallToolResult * option error.

(** [server.ToolHandlerFunc], the context left out. *)
Definition ToolHandlerFunc : Type := CallToolRequest -> M ToolReturn.

(** The type assertions [args[key].(string)], [.(float64)] and [.(bool)] in
    their two-valued form: [None] is [ok == false], which a missing key (a
    nil interface) gives as well. *)
Definition argString (req : CallToolRequest) (key : string) : option string :=
  match Arguments req !! key with
  | Some (VString s) => Some s
  | _ => None
  end.

Definition argFloat64 (req : CallToolRequest) (key : string) : option float64 :=
  match Arguments req !! key with
  | Some (VNumber f) => Some f
  | _ => None
  end.

Definition argBool (req : CallToolRequest) (key : string) : option bool :=
  match Arguments req !! key with
  | Some (VBool b) => Some b
  | _ => None
  end.

(** ** The tool handlers *)

Section Tools.
Context {rt : Runtime}.

(** The [params] that [makeListSessions] fills in before it calls the
    client: a field keeps its initial value ([Limit: 20], zero for the
    others) unless the assertion on its argument succeeds. *)
Definition listSessionsParams (req : CallToolRequest) : ListSessionsParams.t :=
  ListSessionsParams.mk
    (default "" (argString req "status"))
    (default "" (argString req "session_type"))
    (default 20 (int_of_float64 <$> argFloat64 req "limit"))
    0.

Definition makeListSessions (c : Client) : ToolHandlerFunc := fun req =>
  let params := listSessionsParams req in
  r <- ListSessions c params ;;
  match r with
  | Err err =>
      ret (Some (NewToolResultError ("Failed to list sessions: " +:+ Error err)), None)
  | Ok resp => ret (Some (NewToolResultText (MarshalIndent resp)), None)
  end.

Definition makeCreateSession (c : Client) : ToolHandlerFunc := fun req =>
  let name := default "" (argString req "name") in
  let sessionType := default "" (argString req "session_type") in
  if bool_decide (name = "") || bool_decide (sessionType = "") then
    ret (Some (NewToolResultError "name and session_type are required"), None)
  else
    let createReq := CreateSessionRequest.mk name sessionType None
      (argString req "opponent")
      (argString req "location") in
    r <- CreateSession c createReq ;;
    match r with
    | Err err =>
        ret (Some (NewToolResultError ("Failed to create session: " +:+ Error err)), None)
    | Ok session =>
        ret (Some (NewToolResultText
                     ("Session created successfully:" +:+ LF +:+ MarshalIndent session)), None)
    end.

Definition makeStartSession (c : Client) : ToolHandlerFunc := fun req =>
  let sessionID := default "" (argString req "session_id") in
  if bool_decide (sessionID = "") then
    ret (Some (NewToolResultError "session_id is required"), None)
  else
    r <- StartSession c sessionID ;;
    match r with
    | Err err =>
        ret (Some (NewToolResultError ("Failed to start session: " +:+ Error err)), None)
    | Ok session =>
        ret (Some (NewToolResultText
                     ("Session '" +:+ Session.Name session
                      +:+ "' started successfully. Status: "
                      +:+ Session.Status session)), None)
    end.

Definition makePauseSession (c : Client) : ToolHandlerFunc := fun req =>
  let sessionID := default "" (argString req "session_id") in
  if bool_decide (sessionID = "") then
    ret (Some (NewToolResultError "session_id is required"), None)
  else
    r <- PauseSession c sessionID ;;
    match r with
    | Err err =>
        ret (Some (NewToolResultError ("Failed to pause session: " +:+ Error err)), None)
    | Ok session =>
        ret (Some (NewToolResultText
                     ("Session '" +:+ Session.Name session
                      +:+ "' paused. Status: " +:+ Session.Status session)), None)
    end.

Definition makeCompleteSession (c : Client) : ToolHandlerFunc := fun req =>
  let sessionID := default "" (argString req "session_id") in
  if bool_decide (sessionID = "") then
    ret (Some (NewToolResultError "session_id is required"), None)
  else
    r <- CompleteSession c sessionID ;;
    match r with
    | Err err =>
        ret (Some (NewToolResultError ("Failed to complete session: " +:+ Error err)), None)
    | Ok session =>
        ret (Some (NewToolResultText ("Session completed:" +:+ LF +:+ MarshalIndent session)), None)
    end.

(** The [params] of [makeListClips], initially [Limit: 20]. *)
Definition listClipsParams (req : CallToolRequest) : ListClipsParams.t :=
  ListClipsParams.mk
    (default "" (argString req "session_id"))
    ""
    (default "" (argString req "status"))
    (argBool req "favorite")
    (default "" (argString req "search"))
    (default 20 (int_of_float64 <$> argFloat64 req "limit"))
    0.

Definition makeListClips (c : Client) : ToolHandlerFunc := fun req =>
  let params := listClipsParams req in
  r <- ListClips c params ;;
  match r with
  | Err err =>
      ret (Some (NewToolResultError ("Failed to list clips: " +:+ Error err)), None)
  | Ok resp => ret (Some (NewToolResultText (MarshalIndent resp)), None)
  end.

Definition makeFavoriteClip (c : Client) : ToolHandlerFunc := fun req =>
  let clipID := default "" (argString req "clip_id") in
  if bool_decide (clipID = "") then
    ret (Some (NewToolResultError "clip_id is required"), None)
  else
    r <- FavoriteClip c clipID ;;
    match r with
    | Err err =>
        ret (Some (NewToolResultError ("Failed to toggle favorite: " +:+ Error err)), None)
    | Ok clip =>
        let status := "added to" in
        let status := if negb (Clip.IsFavorite clip) then "removed from" else status in
        ret (Some (NewToolResultText ("Clip " +:+ status +:+ " favorites")), None)
    end.

Definition makeListChannels (c : Client) : ToolHandlerFunc := fun req =>
  r <- ListChannels c ;;
  match r with
  | Err err =>
      ret (Some (NewToolResultError ("Failed to list channels: " +:+ Error err)), None)
  | Ok resp => ret (Some (NewToolResultText (MarshalIndent resp)), None)
  end.

Definition makeActivateChannel (c : Client) : ToolHandlerFunc := fun req =>
  let channelID := default "" (argString req "channel_id") in
  if bool_decide (channelID = "") then
    ret (Some (NewToolResultError "channel_id is required"), None)
  else
    r <- ActivateChannel c channelID ;;
    match r with
    | Err err =>
        ret (Some (NewToolResultError ("Failed to activate channel: " +:+ Error err)), None)
    | Ok channel =>
        ret (Some (NewToolResultText
                     ("Channel '" +:+ Channel.Name channel
                      +:+ "' activated. Status: " +:+ Channel.Status channel)), None)
    end.

Definition makeDeactivateChannel (c : Client) : ToolHandlerFunc := fun req =>
  let channelID := default "" (argString req "channel_id") in
  if bool_decide (channelID = "") then
    ret (Some (NewToolResultError "channel_id is required"), None)
  else
    r <- DeactivateChannel c channelID ;;
    match r with
    | Err err =>
        ret (Some (NewToolResultError ("Failed to deactivate channel: " +:+ Error err)), None)
    | Ok channel =>
        ret (Some (NewToolResultText
                     ("Channel '" +:+ Channel.Name channel
                      +:+ "' deactivated. Status: " +:+ Channel.Status channel)), None)
    end.

(** The [params] of [makeListTags], initially [Limit: 50]. *)
Definition listTagsParams (req : CallToolRequest) : ListTagsParams.t :=
  ListTagsParams.mk
    (default "" (argString req "session_id"))
    (default "" (argString req "clip_id"))
    (default "" (argString req "play_type"))
    (argBool req "is_important")
    (argBool req "is_reviewed")
    (default 50 (int_of_float64 <$> argFloat64 req "limit"))
    0.

Definition makeListTags (c : Client) : ToolHandlerFunc := fun req =>
  let params := listTagsParams req in
  r <- ListTags c params ;;
  match r with
  | Err err =>
      ret (Some (NewToolResultError ("Failed to list tags: " +:+ Error err)), None)
  | Ok resp => ret (Some (NewToolResultText (MarshalIndent resp)), None)
  end.

Definition makeCreateTag (c : Client) : ToolHandlerFunc := fun req =>
  let clipID := default "" (argString req "clip_id") in
  let sessionID := default "" (argString req "session_id") in
  if bool_decide (clipID = "") || bool_decide (sessionID = "") then
    ret (Some (NewToolResultError "clip_id and session_id are required"), None)
  else
    let createReq := CreateTagRequest.mk clipID sessionID
      None
      (int_of_float64 <$> argFloat64 req "down")
      (int_of_float64 <$> argFloat64 req "distance")
      (argString req "play_type")
      (argString req "formation")
      (argString req "result")
      (int_of_float64 <$> argFloat64 req "yards_gained")
      []
      (argString req "notes") in
    r <- CreateTag c createReq ;;
    match r with
    | Err err =>
        ret (Some (NewToolResultError ("Failed to create tag: " +:+ Error err)), None)
    | Ok tag => ret (Some (NewToolResultText ("Tag created:" +:+ LF +:+ MarshalIndent tag)), None)
    end.

(** *** Registration ([RegisterTools]) *)

(** An [mcp.Tool] with its handler: name, the declared properties with
    their JSON type, the required properties. *)
Record Tool : Type := mkTool {
  ToolName : string;
  Properties : list (string * string);
  Required : list string;
  Handler : ToolHandlerFunc }.

(** The tools in the order [RegisterTools] adds them to the server. *)
Definition RegisterTools (c : Client) : list Tool := [
  mkTool "list_sessions"
    [("status", "string"); ("session_type", "string"); ("limit", "integer")]
    [] (makeListSessions c);
  mkTool "create_session"
    [("name", "string"); ("session_type", "string"); ("opponent", "string");
     ("location", "string")]
    ["name"; "session_type"] (makeCreateSession c);
  mkTool "start_session" [("session_id", "string")] ["session_id"] (makeStartSession c);
  mkTool "pause_session" [("session_id", "string")] ["session_id"] (makePauseSession c);
  mkTool "complete_session" [("session_id", "string")] ["session_id"]
    (makeCompleteSession c);
  mkTool "list_clips"
    [("session_id", "string"); ("status", "string"); ("favorite", "boolean");
     ("search", "string"); ("limit", "integer")]
    [] (makeListClips c);
  mkTool "favorite_clip" [("clip_id", "string")] ["clip_id"] (makeFavoriteClip c);
  mkTool "list_channels" [] [] (makeListChannels c);
  mkTool "activate_channel" [("channel_id", "string")] ["channel_id"]
    (makeActivateChannel c);
  mkTool "deactivate_channel" [("channel_id", "string")] ["channel_id"]
    (makeDeactivateChannel c);
  mkTool "list_tags"
    [("session_id", "string"); ("clip_id", "string"); ("play_type", "string");
     ("is_important", "boolean"); ("is_reviewed", "boolean"); ("limit", "integer")]
    [] (makeListTags c);
  mkTool "create_tag"
    [("clip_id", "string"); ("session_id", "string"); ("play_type", "string");
     ("formation", "string"); ("result", "string"); ("down", "integer");
     ("distance", "integer"); ("yards_gained", "integer"); ("notes", "string")]
    ["clip_id"; "session_id"] (makeCreateTag c)
].

End Tools.

(** ** The resource handlers ([resources.go]) *)

(** [mcp.ReadResourceRequest]; the handlers read [req.Params.URI]. *)
Record ReadResourceRequest : Type := mkReadResourceRequest {
  URI : string }.

(** [mcp.TextResourceContents], its embedded [ResourceContents] flattened. *)
Record TextResourceContents : Type := mkTextResourceContents {
  ContentsURI : string;
  MIMEType : string;
  ContentsText : string }.

(** What a resource handler returns: a slice of contents ([None] is the nil
    slice) and an [error]. *)
Definition ResourceReturn : Type := option (list TextResourceContents) * option error.

Definition ResourceHandlerFunc : Type := ReadResourceRequest -> M ResourceReturn.

Section Resources.
Context {rt : Runtime}.

Definition makeSessionsResource (c : Client) : ResourceHandlerFunc := fun req =>
  r <- ListSessions c (ListSessionsParams.mk "" "" 100 0) ;;
  match r with
  | Err err => ret (None, Some (Errorf_w "failed to fetch sessions: " err))
  | Ok resp =>
      ret (Some [mkTextResourceContents (URI req) "application/json" (MarshalIndent resp)],
           None)
  end.

Definition makeClipsResource (c : Client) : ResourceHandlerFunc := fun req =>
  r <- ListClips c (ListClipsParams.mk "" "" "" None "" 100 0) ;;
  match r with
  | Err err => ret (None, Some (Errorf_w "failed to fetch clips: " err))
  | Ok resp =>
      ret (Some [mkTextResourceContents (URI req) "application/json" (MarshalIndent resp)],
           None)
  end.

Definition makeChannelsResource (c : Client) : ResourceHandlerFunc := fun req =>
  r <- ListChannels c ;;
  match r with
  | Err err => ret (None, Some (Errorf_w "failed to fetch channels: " err))
  | Ok resp =>
      ret (Some [mkTextResourceContents (URI req) "application/json" (MarshalIndent resp)],
           None)
  end.

Definition makeTagsResource (c : Client) : ResourceHandlerFunc := fun req =>
  r <- ListTags c (ListTagsParams.mk "" "" "" None None 100 0) ;;
  match r with
  | Err err => ret (None, Some (Errorf_w "failed to fetch tags: " err))
  | Ok resp =>
      ret (Some [mkTextResourceContents (URI req) "application/json" (MarshalIndent resp)],
           None)
  end.

(** An [mcp.Resource] with its handler. *)
Record Resource : Type := mkResource {
  ResourceURI : string;
  ResourceName : string;
  ResourceMIMEType : string;
  ResourceHandler : ResourceHandlerFunc }.

(** The resources in the order [RegisterResources] adds them. *)
Definition RegisterResources (c : Client) : list Resource := [
  mkResource "video://sessions" "All Sessions" "application/json" (makeSessionsResource c);
  mkResource "video://clips" "All Clips" "application/json" (makeClipsResource c);
  mkResource "video://channels" "All Channels" "application/json" (makeChannelsResource c);
  mkResource "video://tags" "All Tags" "application/json" (makeTagsResource c)
].

End Resources.

(** ** A stand-in for the libraries

    The examples below need one concrete [Runtime]. [Stub] plays the part
    the test servers play in the Go tests: it follows the libraries on the
    inputs the examples use. URL parsing refuses control characters, the
    query encoding sorts the keys and escapes as [url.QueryEscape] does, the
    decoders know the few bodies listed here and reject every other body,
    and the encoders render an empty object. *)

Module Stub.

Definition DQ : string := String (Ascii.ascii_of_nat 34) "".

Definition isControl (a : Ascii.ascii) : bool :=
  let n := Ascii.nat_of_ascii a in (n <? 32)%nat || (n =? 127)%nat.

Fixpoint hasControl (s : string) : bool :=
  match s with
  | EmptyString => false
  | String a s' => isControl a || hasControl s'
  end.

Definition Parse_error (u : string) : option error :=
  if hasControl u
  then Some (errorString "net/url: invalid control character in URL")
  else None.

Definition unreserved (a : Ascii.ascii) : bool :=
  let n := Ascii.nat_of_ascii a in
  ((48 <=? n) && (n <=? 57))%nat || ((65 <=? n) && (n <=? 90))%nat
  || ((97 <=? n) && (n <=? 122))%nat
  || bool_decide (a ∈ ["-"; "_"; "."; "~"]%char).

Definition hexDigit (n : nat) : Ascii.ascii :=
  nth n ["0"; "1"; "2"; "3"; "4"; "5"; "6"; "7"; "8"; "9";
         "A"; "B"; "C"; "D"; "E"; "F"]%char "0"%char.

Fixpoint QueryEscape (s : string) : string :=
  match s with
  | EmptyString => EmptyString
  | String a s' =>
      if unreserved a then String a (QueryEscape s')
      else if bool_decide (a = " "%char) then String "+"%char (QueryEscape s')
      else let n := Ascii.nat_of_ascii a in
           String "%"%char (String (hexDigit (n / 16)%nat)
                              (String (hexDigit (n mod 16)%nat) (QueryEscape s')))
  end.

Fixpoint insertByKey (kv : string * list string) (l : list (string * list string))
  : list (string * list string) :=
  match l with
  | [] => [kv]
  | kv' :: l' => if String.leb kv.1 kv'.1 then kv :: l else kv' :: insertByKey kv l'
  end.

Fixpoint joinWith (sep : string) (l : list string) : string :=
  match l with
  | [] => ""
  | [x] => x
  | x :: l' => x +:+ sep +:+ joinWith sep l'
  end.

Definition Encode (query : Values) : string :=
  let sorted := foldr insertByKey [] (map_to_list query) in
  joinWith "&"
    (kv ← sorted; (fun v => QueryEscape kv.1 +:+ "=" +:+ QueryEscape v) <$> kv.2).

(** The bodies the decoders know. *)
Definition activeSessionBody : string :=
  "{" +:+ DQ +:+ "name" +:+ DQ +:+ ":" +:+ DQ +:+ "Game 1" +:+ DQ +:+ ","
  +:+ DQ +:+ "status" +:+ DQ +:+ ":" +:+ DQ +:+ "active" +:+ DQ +:+ "}".

Definition activeSession : Session.t :=
  Session.mk "" "Game 1" "" "active" None None None None None 0 0 0 "" "".

Definition favoriteClipBody : string :=
  "{" +:+ DQ +:+ "is_favorite" +:+ DQ +:+ ":true}".

Definition favoriteClip : Clip.t :=
  Clip.mk "" "" "" None "" "" (S754_zero false) "" true 0 "".

Definition decodeFailure {T : Type} (body : string) : result T :=
  if bool_decide (body = "") then Err (errorString "EOF")
  else Err (errorString "invalid character").

#[export] Instance decode_Session : Json Session.t := {|
  Decode body :=
    if bool_decide (body = "{}") then Ok Session.zero
    else if bool_decide (body = activeSessionBody) then Ok activeSession
    else decodeFailure body;
  MarshalIndent _ := "{}" |}.

#[export] Instance decode_Clip : Json Clip.t := {|
  Decode body :=
    if bool_decide (body = "{}") then Ok Clip.zero
    else if bool_decide (body = favoriteClipBody) then Ok favoriteClip
    else decodeFailure body;
  MarshalIndent _ := "{}" |}.

#[export] Instance decode_Channel : Json Channel.t := {|
  Decode body := if bool_decide (body = "{}") then Ok Channel.zero else decodeFailure body;
  MarshalIndent _ := "{}" |}.

#[export] Instance decode_Tag : Json Tag.t := {|
  Decode body := if bool_decide (body = "{}") then Ok Tag.zero else decodeFailure body;
  MarshalIndent _ := "{}" |}.

Definition decode_Paginated (T : Type) (_ : Json T) : Json (PaginatedResponse.t T) := {|
  Decode body :=
    if bool_decide (body = "{}") then Ok (PaginatedResponse.mk [] 0 0 0)
    else decodeFailure body;
  MarshalIndent _ := "{}" |}.

Definition runtime : Runtime := {|
  url_Parse_error := Parse_error;
  Values_Encode := Encode;
  json_Marshal _ := Ok "{}";
  json_Session := decode_Session;
  json_Clip := decode_Clip;
  json_Channel := decode_Channel;
  json_Tag := decode_Tag;
  json_Paginated := decode_Paginated |}.

(** The upstream that answers every request with one response. *)
Definition respond (status : Z) (body : string) : Request -> result Response :=
  fun _ => Ok (mkResponse status body).

(** The upstream that cannot be reached. *)
Definition unreachable : Request -> result Response :=
  fun _ => Err (errorString "connection refused").

Definition client : Client := New "http://localhost:8080".

End Stub.

(** The calls, worlds and requests of the examples. *)

Module Witness.

Definition rt : Runtime := Stub.runtime.
Definition c : Client := Stub.client.

(** Argument maps: none; a clip alone; a session. *)
Definition noArgs : CallToolRequest := mkCallToolRequest ∅.
Definition clipOnly : CallToolRequest :=
  mkCallToolRequest {["clip_id" := VString "clip-1"]}.
Definition session123 : CallToolRequest :=
  mkCallToolRequest {["session_id" := VString "session-123"]}.

Definition idle : World := mkWorld Stub.unreachable [].

Definition listRequest : Request :=
  mkRequest "GET" "http://localhost:8080/api/v1/sessions?limit=20" None [].
Definition startRequest : Request :=
  mkRequest "POST" "http://localhost:8080/api/v1/sessions/session-123/start" None
    [("Content-Type", "application/json")].
Definition favoriteRequest : Request :=
  mkRequest "POST" "http://localhost:8080/api/v1/clips/clip-1/favorite" None
    [("Content-Type", "application/json")].

Definition mkSessionsRequest : Request :=
  mkRequest "GET" "http://localhost:8080/api/v1/sessions?limit=100" None [].

End Witness.

(** ** Vocabulary of the statements *)

(** Whether the type assertion a handler makes for a property of JSON type
    [ty] succeeds on [v]: [.(string)] for "string", [.(float64)] for
    "integer", [.(bool)] for "boolean". *)
Definition asserted (ty : string) (v : value) : bool :=
  match v with
  | VString _ => bool_decide (ty = "string")
  | VNumber _ => bool_decide (ty = "integer")
  | VBool _ => bool_decide (ty = "boolean")
  | VNil | VArray _ | VObject _ => false
  end.

(** A handler rejects a request: it returns an error-flagged result and
    hands the world back as it received it. *)
Definition rejects (h : ToolHandlerFunc) (req : CallToolRequest) (w : World) : Prop :=
  exists res : CallToolResult, h req w = ((Some res, None), w) /\ IsError res = true.

(** One constructor for each method of the client, with its arguments. *)
Inductive Call : Type :=
  | CallListSessions (params : ListSessionsParams.t)
  | CallGetSession (id : string)
  | CallCreateSession (req : CreateSessionRequest.t)
  | CallStartSession (id : string)
  | CallPauseSession (id : string)
  | CallCompleteSession (id : string)
  | CallListClips (params : ListClipsParams.t)
  | CallGetClip (id : string)
  | CallFavoriteClip (id : string)
  | CallListChannels
  | CallActivateChannel (id : string)
  | CallDeactivateChannel (id : string)
  | CallListTags (params : ListTagsParams.t)
  | CallCreateTag (req : CreateTagRequest.t).

(** The [error] half of what a client method returns, nil being [None]. *)
Definition errorOf {T : Type} (m : M (result T)) : M (option error) :=
  r <- m ;;
  ret (match r with Ok _ => None | Err err => Some err end).

Section Exchange.
Context {rt : Runtime}.

Definition invoke (c : Client) (call : Call) : M (option error) :=
  match call with
  | CallListSessions params => errorOf (ListSessions c params)
  | CallGetSession id => errorOf (GetSession c id)
  | CallCreateSession req => errorOf (CreateSession c req)
  | CallStartSession id => errorOf (StartSession c id)
  | CallPauseSession id => errorOf (PauseSession c id)
  | CallCompleteSession id => errorOf (CompleteSession c id)
  | CallListClips params => errorOf (ListClips c params)
  | CallGetClip id => errorOf (GetClip c id)
  | CallFavoriteClip id => errorOf (FavoriteClip c id)
  | CallListChannels => errorOf (ListChannels c)
  | CallActivateChannel id => errorOf (ActivateChannel c id)
  | CallDeactivateChannel id => errorOf (DeactivateChannel c id)
  | CallListTags params => errorOf (ListTags c params)
  | CallCreateTag req => errorOf (CreateTag c req)
  end.

(** The URL [get] requests. *)
Definition getURL (c : Client) (path : string) (query : Values) : string :=
  if (0 <? size query)%nat
  then (baseURL c +:+ path) +:+ "?" +:+ Values_Encode query
  else baseURL c +:+ path.

(** The request [get] hands to [doRequest], or the error it returns
    before. *)
Definition getRequest (c : Client) (path : string) (query : Values) : result Request :=
  NewRequestWithContext "GET" (getURL c path query) None.

(** The request [post] hands to [doRequest], or the error it returns
    before. *)
Definition postRequest (c : Client) (path : string) (body : option PostBody)
  : result Request :=
  let build (bodyReader : option string) : result Request :=
    match url_Parse_error (baseURL c +:+ path) with
    | Some err => Err err
    | None =>
        Ok (mkRequest "POST" (baseURL c +:+ path) bodyReader
              [("Content-Type", "application/json")])
    end in
  match body with
  | None => build None
  | Some b =>
      match json_Marshal b with
      | Err err => Err err
      | Ok data => build (Some data)
      end
  end.

(** [exchange up built reqs res]: a client method that built [built]
    sent [reqs] to the upstream [up] and returned [res]. The five rules
    are the five ways through [get] or [post] and [doRequest]. *)
Inductive exchange {T : Type} `{Json T} (up : Request -> result Response)
  : result Request -> list Request -> result T -> Prop :=
  | exchange_refused (err : error) :
      exchange up (Err err) [] (Err err)
  | exchange_transport (r : Request) (err : error) :
      up r = Err err ->
      exchange up (Ok r) [r] (Err (Errorf_w "request failed: " err))
  | exchange_api_error (r : Request) (resp : Response) :
      up r = Ok resp ->
      400 <= StatusCode resp ->
      exchange up (Ok r) [r]
        (Err (errorString
                ("API error " +:+ fmt_d (StatusCode resp) +:+ ": " +:+ Body resp)))
  | exchange_undecodable (r : Request) (resp : Response) (err : error) :
      up r = Ok resp ->
      StatusCode resp < 400 ->
      Decode (Body resp) = Err err ->
      exchange up (Ok r) [r] (Err (Errorf_w "failed to decode response: " err))
  | exchange_decoded (r : Request) (resp : Response) (v : T) :
      up r = Ok resp ->
      StatusCode resp < 400 ->
      Decode (Body resp) = Ok v ->
      exchange up (Ok r) [r] (Ok v).

(** C4 as the specification words it: every response outside 200..299
    makes every method return an error whose message carries the status
    code and the body. *)
Definition non_2xx_is_error : Prop :=
  forall (c : Client) (call : Call) (up : Request -> result Response)
         (r : Request) (resp : Response),
    r ∈ (run (invoke c call) up).2 ->
    up r = Ok resp ->
    ~ (200 <= StatusCode resp < 300) ->
    exists err : error,
      (run (invoke c call) up).1 = Some err
      /\ Str.Contains (Error err) (fmt_d (StatusCode resp)) = true
      /\ Str.Contains (Error err) (Body resp) = true.

End Exchange.

(** The two shapes of a tool call: rejected before any request, or one
    client call whose error, if any, is reported behind a prefix. *)
Definition tool_shape (h : ToolHandlerFunc) (req : CallToolRequest)
    (up : Request -> result Response) : Prop :=
  (exists text, run (h req) up = ((Some (NewToolResultError text), None), []))
  \/ (exists (T : Type) (J : Json T) (built : result Request) (reqs : list Request)
             (res : result T) (prefix : string),
        exchange up built reqs res
        /\ (run (h req) up).2 = reqs
        /\ match res with
           | Err err =>
               (run (h req) up).1
               = (Some (NewToolResultError (prefix +:+ Error err)), None)
           | Ok _ =>
               exists text, (run (h req) up).1 = (Some (NewToolResultText text), None)
           end).

Section Issues.
Context {rt : Runtime}.

(** The GET request for [path] with a query that is not empty. *)
Definition getWithQuery (c : Client) (path : string) (query : Values) : Request :=
  mkRequest "GET" ((baseURL c +:+ path) +:+ "?" +:+ Values_Encode query) None [].

(** [issues h req r]: whatever the upstream answers, the handler sends
    [r] and nothing else; it sends nothing only if net/http refuses the
    URL of [r]. *)
Definition issues (h : ToolHandlerFunc) (req : CallToolRequest) (r : Request) : Prop :=
  forall up : Request -> result Response,
    (run (h req) up).2
    = match url_Parse_error (URL r) with None => [r] | Some _ => [] end.

(** [propagates h call prefix]: the resource handler [h] sends what the
    client call [call] sends; when the call fails, [h] returns no
    contents and the call's error wrapped behind [prefix]; when it
    succeeds, [h] returns one document for the requested URI and no
    error. *)
Definition propagates {T : Type} (h : ResourceHandlerFunc) (call : M (result T))
    (prefix : string) : Prop :=
  forall (req : ReadResourceRequest) (up : Request -> result Response),
    match run call up with
    | (Err err, reqs) => run (h req) up = ((None, Some (Errorf_w prefix err)), reqs)
    | (Ok _, reqs) =>
        exists text : string,
          run (h req) up
          = ((Some [mkTextResourceContents (URI req) "application/json" text], None),
             reqs)
    end.

(** The handler fails hard: no contents, an error. *)
Definition hard_error (h : ResourceHandlerFunc) (req : ReadResourceRequest)
    (up : Request -> result Response) : Prop :=
  exists err : error, (run (h req) up).1 = (None, Some err).

End Issues.

(** C2 as the specification words it: the query holds the three filters
    exactly as the argument map supplies them, and none that the map
    lacks. *)
Definition forwards_exactly (req : CallToolRequest) (query : Values) : Prop :=
  (forall key, key ∈ ["status"; "session_type"; "limit"] ->
               Arguments req !! key = None -> query !! key = None)
  /\ (forall s, Arguments req !! "status" = Some (VString s) ->
                query !! "status" = Some [s])
  /\ (forall s, Arguments req !! "session_type" = Some (VString s) ->
                query !! "session_type" = Some [s])
  /\ (forall f, Arguments req !! "limit" = Some (VNumber f) ->
                query !! "limit" = Some [fmt_d (int_of_float64 f)]).

(** ** The prompt handlers ([prompts.go]) *)

(** [mcp.Role]. *)
Inductive Role : Type :=
  | RoleUser
  | RoleAssistant.

(** [mcp.PromptMessage], [mcp.GetPromptResult] and the part of
    [mcp.GetPromptRequest] the handlers read, [req.Params.Arguments], a
    map from strings to strings. *)
Record PromptMessage : Type := mkPromptMessage {
  MessageRole : Role;
  MessageContent : TextContent }.

Record GetPromptResult : Type := mkGetPromptResult {
  Messages : list PromptMessage }.

Record GetPromptRequest : Type := mkGetPromptRequest {
  PromptArgs : gmap string string }.

(** What a prompt handler returns: a pointer to a result and an error. *)
Definition PromptReturn : Type := option GetPromptResult * option error.

Definition PromptHandlerFunc : Type := GetPromptRequest -> PromptReturn.

(** [req.Params.Arguments[key]]: the empty string when the key is missing. *)
Definition promptArg (req : GetPromptRequest) (key : string) : string :=
  default "" (PromptArgs req !! key).

(** The result every handler builds: one message of the user, of type
    "text". *)
Definition userPrompt (prompt : string) : GetPromptResult :=
  mkGetPromptResult [mkPromptMessage RoleUser (mkTextContent "text" prompt)].

(** The format strings, cut at each verb of the form percent-s: the
    text of [handleAnalyzeSession], [handleReviewClips],
    [handleGameReport] and [handleSystemStatus]. *)
Module Template.

Definition analyze_0 : string :=
"Analyze the video session with ID: ".

Definition analyze_1 : string :=
"

Focus area: ".

Definition analyze_2 : string :=
"

Please follow these steps:

1. First, read the session summary resource:
   video://sessions/".

Definition analyze_3 : string :=
"/summary

2. Review the session metadata including:
   - Session type (game/practice)
   - Duration and clip count
   - Opponent and location (if applicable)

3. Analyze the play distribution:
   - Break down plays by type (Run/Pass/etc.)
   - Identify successful vs unsuccessful plays
   - Note any patterns in formations or results

4. Highlight key moments:
   - Look for important tagged plays
   - Identify any scoring plays or turnovers
   - Note teaching moments

5. Provide coaching recommendations:
   - What worked well?
   - What needs improvement?
   - Specific drills or focus areas for practice

Format your analysis with clear sections and actionable insights.".

Definition review_0 : string :=
"Review clips from session: ".

Definition review_1 : string :=
"
".

Definition review_2 : string :=
"

Please help me review and analyze the clips:

1. Use the list_clips tool to get clips for this session:
   - Filter by session_id: ".

Definition review_3 : string :=
"
   ".

Definition review_4 : string :=
"

2. For each clip, examine:
   - Duration and status
   - Whether it's marked as favorite
   - Associated tags and annotations

3. Group clips by:
   - Play type (if tagged)
   - Formation used
   - Result (success/failure)

4. Identify clips that:
   - Should be marked as favorites (if not already)
   - Need additional tagging
   - Could be used for teaching

5. Provide a summary of:
   - Total clips reviewed
   - Highlights worth keeping
   - Clips that may need re-recording

Let me know if you need me to create tags for any clips or mark specific ones as favorites.".

Definition report_0 : string :=
"Generate a comprehensive game report for session: ".

Definition report_1 : string :=
"

1. First, fetch the complete session summary:
   video://sessions/".

Definition report_2 : string :=
"/summary

2. Create a structured game report with these sections:

## Game Overview
- Date and opponent
- Final result (if available)
- Total plays and duration

## Offensive Summary
- Run/Pass ratio
- Successful plays vs unsuccessful
- Key formations used
- Yards gained breakdown

## Defensive Summary
- Stops and tackles
- Turnovers forced
- Coverage breakdowns

## Special Teams
- Punts, kickoffs, field goals
- Return yards

## Key Plays
- Touchdowns
- Turnovers
- Big plays (15+ yards)
- Critical third/fourth down conversions

## Areas for Improvement
- Identify weaknesses
- Suggest practice focus areas

## Player Highlights
- Notable performances
- Players who need additional coaching

Format the report professionally with clear headers and bullet points.".

Definition status_0 : string :=
"Check the current status of the video platform system:

1. Use the list_channels tool to check all video input channels:
   - Which channels are active?
   - Are there any channels in error state?
   - When were channels last seen?

2. Use the list_sessions tool to check active sessions:
   - Are there any sessions currently recording (status: active)?
   - Are there scheduled sessions that should have started?
   - Recent completed sessions

3. Provide a status summary:
   - Overall system health
   - Active channel count
   - Current recording status
   - Any issues that need attention

If there are any problems, suggest corrective actions like:
- Activating inactive channels
- Starting scheduled sessions
- Investigating error states".

End Template.

Definition handleAnalyzeSession : PromptHandlerFunc := fun req =>
  let sessionID := promptArg req "session_id" in
  if bool_decide (sessionID = "") then
    (None, Some (errorString "session_id is required"))
  else
    let focus := "all" in
    let focus := let f := promptArg req "focus" in
                 if bool_decide (f ≠ "") then f else focus in
    let prompt := Template.analyze_0 +:+ sessionID +:+ Template.analyze_1 +:+ focus
                  +:+ Template.analyze_2 +:+ sessionID +:+ Template.analyze_3 in
    (Some (userPrompt prompt), None).

Definition handleReviewClips : PromptHandlerFunc := fun req =>
  let sessionID := promptArg req "session_id" in
  if bool_decide (sessionID = "") then
    (None, Some (errorString "session_id is required"))
  else
    let playType := promptArg req "play_type" in
    let playTypeFilter := "" in
    let playTypeFilter := if bool_decide (playType ≠ "")
                          then "Filtered by play type: " +:+ playType
                          else playTypeFilter in
    let prompt := Template.review_0 +:+ sessionID +:+ Template.review_1 +:+ playTypeFilter
                  +:+ Template.review_2 +:+ sessionID +:+ Template.review_3
                  +:+ playTypeFilter +:+ Template.review_4 in
    (Some (userPrompt prompt), None).

Definition handleGameReport : PromptHandlerFunc := fun req =>
  let sessionID := promptArg req "session_id" in
  if bool_decide (sessionID = "") then
    (None, Some (errorString "session_id is required"))
  else
    let prompt := Template.report_0 +:+ sessionID +:+ Template.report_1 +:+ sessionID
                  +:+ Template.report_2 in
    (Some (userPrompt prompt), None).

Definition handleSystemStatus : PromptHandlerFunc := fun req =>
  let prompt := Template.status_0 in
  (Some (userPrompt prompt), None).

(** An [mcp.Prompt] with its handler: name, and the declared arguments
    with their [Required] flag. *)
Record Prompt : Type := mkPrompt {
  PromptName : string;
  PromptArguments : list (string * bool);
  PromptHandler : PromptHandlerFunc }.

(** The prompts in the order [RegisterPrompts] adds them. *)
Definition RegisterPrompts : list Prompt := [
  mkPrompt "analyze_session" [("session_id", true); ("focus", false)] handleAnalyzeSession;
  mkPrompt "review_clips" [("session_id", true); ("play_type", false)] handleReviewClips;
  mkPrompt "game_report" [("session_id", true)] handleGameReport;
  mkPrompt "system_status" [] handleSystemStatus
].

(** ** The entry point ([main]) *)

(** The base URL [main] hands to [client.New]: the value of the flag
    -api-url ([None] when the flag is not given, which leaves its default)
    unless the environment variable VIDEO_PLATFORM_URL is set to a
    non-empty string; [envURL] is what [os.Getenv] returns, the empty
    string for an unset variable. *)
Definition main_apiURL (flagValue : option string) (envURL : string) : string :=
  let apiURL := default "http://localhost:8080" flagValue in
  if bool_decide (envURL ≠ "") then envURL else apiURL.

Definition main_apiClient (flagValue : option string) (envURL : string) : Client :=
  New (main_apiURL flagValue envURL).

(** ** Vocabulary of the further statements *)

Section Tables.
Context {rt : Runtime}.

(** The six tools that post to an endpoint named after one identifier:
    the handler, the argument it reads, and what [client.go] puts before
    and after the identifier in the path. *)
Definition transitions (c : Client)
  : list (ToolHandlerFunc * (string * (string * string))) := [
  (makeStartSession c, ("session_id", ("/api/v1/sessions/", "/start")));
  (makePauseSession c, ("session_id", ("/api/v1/sessions/", "/pause")));
  (makeCompleteSession c, ("session_id", ("/api/v1/sessions/", "/complete")));
  (makeFavoriteClip c, ("clip_id", ("/api/v1/clips/", "/favorite")));
  (makeActivateChannel c, ("channel_id", ("/api/v1/channels/", "/activate")));
  (makeDeactivateChannel c, ("channel_id", ("/api/v1/channels/", "/deactivate")))
].

(** The POST request without a body that [post] builds for a path. *)
Definition postWithoutBody (c : Client) (path : string) : Request :=
  mkRequest "POST" (baseURL c +:+ path) None [("Content-Type", "application/json")].

(** The POST request with a body. *)
Definition postWithBody (c : Client) (path data : string) : Request :=
  mkRequest "POST" (baseURL c +:+ path) (Some data)
    [("Content-Type", "application/json")].

(** What the client puts into a request whatever the method called: the
    method GET without body and headers, or the method POST with the JSON
    content type. *)
Definition well_formed (r : Request) : Prop :=
  (Method r = "GET" /\ ReqBody r = None /\ Header r = [])
  \/ (Method r = "POST" /\ Header r = [("Content-Type", "application/json")]).

End Tables.

(** How a list tool forwards a string filter: the asserted string when
    it is not empty. *)
Definition forwardedString (arg : option string) : option (list string) :=
  match arg with
  | Some s => if decide (s = "") then None else Some [s]
  | None => None
  end.

(** How a list tool forwards a boolean filter: the asserted boolean,
    false as much as true. *)
Definition forwardedBool (arg : option bool) : option (list string) :=
  (fun b => [fmt_v_bool b]) <$> arg.

(** How a list tool forwards the limit: the integer part of the asserted
    number when it is positive, the handler's initial value without a
    number. *)
Definition forwardedLimit (initial : Z) (arg : option float64) : option (list string) :=
  match arg with
  | Some f => if 0 <? int_of_float64 f then Some [fmt_d (int_of_float64 f)] else None
  | None => Some [fmt_d initial]
  end.

(** What is sent when the client tries the request [r]: [r], unless
    net/http refuses its URL. *)
Definition attempt {rt : Runtime} (r : Request) : list Request :=
  match url_Parse_error (URL r) with
  | None => [r]
  | Some _ => []
  end.

(** The text by which a tool rejects a call, read off the required keys
    of its schema. *)
Definition requiredMessage (required : list string) : string :=
  match required with
  | [key] => key +:+ " is required"
  | [key1; key2] => key1 +:+ " and " +:+ key2 +:+ " are required"
  | _ => ""
  end.

(** Argument maps and upstreams of the further examples. *)
Module Fixture.

Definition newGame : CallToolRequest :=
  mkCallToolRequest
    (list_to_map [("name", VString "New Game"); ("session_type", VString "game");
                  ("opponent", VString "Team B")]).

Definition runTag : CallToolRequest :=
  mkCallToolRequest
    (list_to_map [("clip_id", VString "clip-1"); ("session_id", VString "session-1");
                  ("play_type", VString "run"); ("down", VNumber (S754_finite false 1 0))]).

Definition channel1 : CallToolRequest :=
  mkCallToolRequest {["channel_id" := VString "camera-1"]}.

Definition session1 : CallToolRequest :=
  mkCallToolRequest {["session_id" := VString "session-1"]}.

Definition report : GetPromptRequest :=
  mkGetPromptRequest {["session_id" := "session-1"]}.

Definition emptyObject : Request -> result Response := Stub.respond 200 "{}".

Definition sessionsResource : ReadResourceRequest :=
  mkReadResourceRequest "video://sessions".

End Fixture.

(** ** Facts about strings *)

Module StrFacts.
Import Str.

Lemma append_nil (s : string) : "" +:+ s = s.
Proof. reflexivity. Qed.

Lemma append_cons (x : Ascii.ascii) (a b : string) :
  String x a +:+ b = String x (a +:+ b).
Proof. reflexivity. Qed.

Lemma append_empty_r (s : string) : s +:+ "" = s.
Proof.
  induction s as [|x s IH]; [done |].
  by rewrite append_cons, IH.
Qed.

Lemma append_assoc (a b c : string) : (a +:+ b) +:+ c = a +:+ (b +:+ c).
Proof.
  induction a as [|x a IH]; [done |].
  by rewrite !append_cons, IH.
Qed.

Lemma HasPrefix_append (p rest : string) : HasPrefix (p +:+ rest) p = true.
Proof.
  induction p as [|x p IH]; [done |].
  rewrite append_cons. simpl. by rewrite decide_True.
Qed.

Lemma HasPrefix_inv (p t : string) :
  HasPrefix t p = true -> exists post, t = p +:+ post.
Proof.
  revert t. induction p as [|a p IH]; intros t; [by exists t |].
  destruct t as [|b t]; simpl; [done |].
  case_decide; [subst b | done].
  intros [post ->]%IH. by exists post.
Qed.

Lemma Contains_prefix (s p : string) : HasPrefix s p = true -> Contains s p = true.
Proof. destruct s; simpl; intros ->; done. Qed.

Lemma Contains_append_r (pre s sub : string) :
  Contains s sub = true -> Contains (pre +:+ s) sub = true.
Proof.
  intros H. induction pre as [|x pre IH]; [done |].
  rewrite append_cons. simpl. rewrite IH. apply orb_true_r.
Qed.

(** A string contains every infix it was built from. *)
Lemma Contains_infix (pre sub post : string) :
  Contains (pre +:+ sub +:+ post) sub = true.
Proof. apply Contains_append_r, Contains_prefix, HasPrefix_append. Qed.

Lemma Contains_spec (s sub : string) :
  Contains s sub = true <-> exists pre post, s = pre +:+ sub +:+ post.
Proof.
  split.
  - induction s as [|a s IH]; simpl.
    + rewrite orb_false_r. intros [post ->]%HasPrefix_inv. by exists "", post.
    + intros [[post Hpost]%HasPrefix_inv | [pre [post ->]]%IH]%orb_true_iff.
      * exists "", post. by rewrite Hpost.
      * by exists (String a pre), post.
  - intros (pre & post & ->). apply Contains_infix.
Qed.

Lemma Contains_suffix (pre sub : string) : Contains (pre +:+ sub) sub = true.
Proof. apply Contains_spec. exists pre, "". by rewrite append_empty_r. Qed.

Lemma HasPrefix_refl (s : string) : HasPrefix s s = true.
Proof. induction s as [|x s IH]; [done |]. simpl. by rewrite decide_True. Qed.

Lemma Contains_refl (s : string) : Contains s s = true.
Proof. apply Contains_prefix, HasPrefix_refl. Qed.

Lemma Contains_append_l (s post sub : string) :
  Contains s sub = true -> Contains (s +:+ post) sub = true.
Proof.
  intros (a & b & ->)%Contains_spec. apply Contains_spec.
  exists a, (b +:+ post). by rewrite !append_assoc.
Qed.

(** The message of an API error, behind any prefix, shows the status
    code and the body. *)
Lemma API_error_Contains (pre : string) (status : Z) (body : string) :
  let text := pre +:+ "API error " +:+ fmt_d status +:+ ": " +:+ body in
  Contains text (fmt_d status) = true /\ Contains text body = true.
Proof.
  split.
  - do 2 apply Contains_append_r. apply Contains_prefix, HasPrefix_append.
  - do 4 apply Contains_append_r. apply Contains_refl.
Qed.

End StrFacts.

(** ** The client: what a call sends and returns *)

Section ClientFacts.
Context {rt : Runtime}.

(** A world after the requests [reqs] were sent. *)
Local Abbreviation after w reqs := (mkWorld (upstream w) (sent w ++ reqs)).

Lemma after_nil (w : World) : after w [] = w.
Proof. destruct w. simpl. by rewrite app_nil_r. Qed.

Lemma doRequest_exchange {T : Type} `{Json T} (req : Request) (w : World) :
  exists res : result T,
    doRequest req w = (res, after w [req])
    /\ exchange (upstream w) (Ok req) [req] res.
Proof.
  unfold doRequest, bind, Do, ret.
  destruct (upstream w req) as [resp | err] eqn:Hup.
  - destruct (400 <=? StatusCode resp) eqn:Hst.
    + eexists. split; [reflexivity |].
      apply exchange_api_error; [done | lia].
    + destruct (Decode (Body resp)) as [v | err] eqn:Hdec.
      * eexists. split; [reflexivity |]. apply (exchange_decoded _ _ resp); [done | lia | done].
      * eexists. split; [reflexivity |].
        apply (exchange_undecodable _ _ resp); [done | lia | done].
  - eexists. split; [reflexivity |]. by apply exchange_transport.
Qed.

Lemma get_exchange {T : Type} `{Json T} (c : Client) (path : string) (query : Values)
    (w : World) :
  exists (res : result T) (reqs : list Request),
    get c path query w = (res, after w reqs)
    /\ exchange (upstream w) (getRequest c path query) reqs res.
Proof.
  unfold get, getRequest, getURL, NewRequestWithContext.
  destruct (url_Parse_error _) as [err |].
  - exists (Err err), []. rewrite after_nil. split; [done | constructor].
  - destruct (doRequest_exchange (T:=T)
                (mkRequest "GET"
                   (if (0 <? size query)%nat
                    then (baseURL c +:+ path) +:+ "?" +:+ Values_Encode query
                    else baseURL c +:+ path) None []) w) as (res & Hrun & Hex).
    exists res. eexists. split; [exact Hrun | exact Hex].
Qed.

Lemma post_exchange {T : Type} `{Json T} (c : Client) (path : string)
    (body : option PostBody) (w : World) :
  exists (res : result T) (reqs : list Request),
    post c path body w = (res, after w reqs)
    /\ exchange (upstream w) (postRequest c path body) reqs res.
Proof.
  assert (Hbuild : forall bodyReader,
    exists (res : result T) (reqs : list Request),
      match NewRequestWithContext "POST" (baseURL c +:+ path) bodyReader with
      | Err err => ret (Err err)
      | Ok req => doRequest (Header_Set "Content-Type" "application/json" req)
      end w = (res, after w reqs)
      /\ exchange (upstream w)
           match url_Parse_error (baseURL c +:+ path) with
           | Some err => Err err
           | None => Ok (mkRequest "POST" (baseURL c +:+ path) bodyReader
                           [("Content-Type", "application/json")])
           end reqs res).
  { intros bodyReader. unfold NewRequestWithContext.
    destruct (url_Parse_error _) as [err |].
    - exists (Err err), []. rewrite after_nil. split; [done | constructor].
    - destruct (doRequest_exchange (T:=T)
                  (mkRequest "POST" (baseURL c +:+ path) bodyReader
                     [("Content-Type", "application/json")]) w) as (res & Hrun & Hex).
      exists res. eexists. split; [exact Hrun | exact Hex]. }
  unfold post, postRequest. destruct body as [b |]; [| apply Hbuild].
  destruct (json_Marshal b) as [data | err]; [apply Hbuild |].
  exists (Err err), []. rewrite after_nil. split; [done | constructor].
Qed.

End ClientFacts.

(** ** Tool handlers: required arguments *)

Section RequiredArguments.
Context {rt : Runtime}.

Lemma argString_missing (req : CallToolRequest) (key : string) :
  Arguments req !! key = None -> argString req key = None.
Proof. unfold argString. by intros ->. Qed.

(** What a tool answers when a required string is empty depends on the
    tool alone. *)
Lemma required_empty_rejects (c : Client) (t : Tool) (key : string) :
  t ∈ RegisterTools c ->
  key ∈ Required t ->
  exists text : string,
    forall (req : CallToolRequest) (w : World),
      default "" (argString req key) = "" ->
      Handler t req w = ((Some (NewToolResultError text), None), w).
Proof.
  unfold RegisterTools. intros Ht Hkey.
  repeat (apply elem_of_cons in Ht as [-> | Ht]);
    try (by apply elem_of_nil in Ht); simpl in Hkey;
    repeat (apply elem_of_cons in Hkey as [-> | Hkey]);
    try (by apply elem_of_nil in Hkey); simpl;
    eexists; intros req w Hempty;
    unfold makeCreateSession, makeStartSession, makePauseSession, makeCompleteSession,
      makeFavoriteClip, makeActivateChannel, makeDeactivateChannel, makeCreateTag;
    rewrite Hempty; simpl; rewrite ?orb_true_r; reflexivity.
Qed.

Lemma rejects_run (h : ToolHandlerFunc) (req : CallToolRequest) (text : string) :
  (forall w, h req w = ((Some (NewToolResultError text), None), w)) ->
  forall w, rejects h req w /\ (run (h req) (upstream w)).2 = [].
Proof.
  intros Hrun w. split.
  - exists (NewToolResultError text). by rewrite Hrun.
  - unfold run. by rewrite Hrun.
Qed.

(** C1. Every tool invoked without an argument its schema requires
    (start_session, pause_session, complete_session, favorite_clip,
    activate_channel, deactivate_channel, create_tag for their identifier,
    create_session for its two fields) returns an error-flagged result
    and leaves the world untouched, so nothing was sent upstream; in
    particular create_tag with [clip_id] present and [session_id] absent
    does. *)
Theorem missing_required_argument_is_rejected :
  (forall (c : Client) (t : Tool) (key : string) (req : CallToolRequest) (w : World),
      t ∈ RegisterTools c ->
      key ∈ Required t ->
      Arguments req !! key = None ->
      rejects (Handler t) req w /\ (run (Handler t req) (upstream w)).2 = [])
  /\
  (forall (c : Client) (req : CallToolRequest) (w : World) (clipID : value),
      Arguments req !! "clip_id" = Some clipID ->
      Arguments req !! "session_id" = None ->
      rejects (makeCreateTag c) req w /\ (run (makeCreateTag c req) (upstream w)).2 = []).
Proof.
  assert (Hgen : forall c t key req w,
             t ∈ RegisterTools c -> key ∈ Required t -> Arguments req !! key = None ->
             rejects (Handler t) req w /\ (run (Handler t req) (upstream w)).2 = []).
  { intros c t key req w Ht Hkey Habs.
    destruct (required_empty_rejects c t key Ht Hkey) as [text Hrun].
    apply (rejects_run _ _ text). intros w'. apply Hrun.
    by rewrite argString_missing. }
  split; [exact Hgen |].
  intros c req w clipID _ Habs.
  apply (rejects_run _ _ "clip_id and session_id are required").
  intros w'. unfold makeCreateTag. rewrite (argString_missing req "session_id" Habs).
  simpl. by rewrite orb_true_r.
Qed.

(** C10. For every tool and every argument its schema requires, the call
    with the argument set to the empty string returns what the call
    with the argument removed returns, which is an error-flagged result,
    and sends nothing upstream. *)
Theorem empty_required_argument_is_absent (c : Client) (t : Tool) (key : string)
    (args : gmap string value) (w : World) :
  t ∈ RegisterTools c ->
  key ∈ Required t ->
  let empty := mkCallToolRequest (<[key := VString ""]> args) in
  let absent := mkCallToolRequest (delete key args) in
  Handler t empty w = Handler t absent w
  /\ rejects (Handler t) empty w
  /\ (run (Handler t empty) (upstream w)).2 = [].
Proof.
  intros Ht Hkey empty absent.
  destruct (required_empty_rejects c t key Ht Hkey) as [text Hrun].
  assert (He : default "" (argString empty key) = "").
  { unfold argString, empty. simpl. by rewrite lookup_insert_eq. }
  assert (Ha : default "" (argString absent key) = "").
  { unfold argString, absent. simpl. by rewrite lookup_delete_eq. }
  split; [by rewrite !Hrun |].
  apply (rejects_run _ _ text). intros w'. by apply Hrun.
Qed.

End RequiredArguments.

(** ** Tool handlers: arguments of another type *)

Section WrongType.
Context {rt : Runtime}.

Section Agree.
Variables (key : string) (v : value) (args : gmap string value).

Let present := mkCallToolRequest (<[key := v]> args).
Let absent := mkCallToolRequest (delete key args).

Lemma lookup_agree (k : string) :
  key ≠ k -> Arguments present !! k = Arguments absent !! k.
Proof.
  intros Hne. unfold present, absent. simpl.
  by rewrite lookup_insert_ne, lookup_delete_ne.
Qed.

Lemma argString_agree (k : string) :
  key ≠ k \/ (forall s, v ≠ VString s) ->
  argString present k = argString absent k.
Proof.
  unfold argString. intros [Hne | Hty]; [by rewrite lookup_agree |].
  destruct (decide (key = k)) as [<- | Hne]; [| by rewrite lookup_agree].
  unfold present, absent. simpl. rewrite lookup_insert_eq, lookup_delete_eq.
  destruct v; try done. by destruct (Hty s).
Qed.

Lemma argFloat64_agree (k : string) :
  key ≠ k \/ (forall f, v ≠ VNumber f) ->
  argFloat64 present k = argFloat64 absent k.
Proof.
  unfold argFloat64. intros [Hne | Hty]; [by rewrite lookup_agree |].
  destruct (decide (key = k)) as [<- | Hne]; [| by rewrite lookup_agree].
  unfold present, absent. simpl. rewrite lookup_insert_eq, lookup_delete_eq.
  destruct v; try done. by destruct (Hty f).
Qed.

Lemma argBool_agree (k : string) :
  key ≠ k \/ (forall b, v ≠ VBool b) ->
  argBool present k = argBool absent k.
Proof.
  unfold argBool. intros [Hne | Hty]; [by rewrite lookup_agree |].
  destruct (decide (key = k)) as [<- | Hne]; [| by rewrite lookup_agree].
  unfold present, absent. simpl. rewrite lookup_insert_eq, lookup_delete_eq.
  destruct v; try done. by destruct (Hty b).
Qed.

End Agree.

Ltac agree_side Hty :=
  first [ left; discriminate
        | right; intros ? ->; simpl in Hty; discriminate ].

Ltac agree Hty :=
  repeat match goal with
    | |- context [argString (mkCallToolRequest (<[?k := ?v]> ?a)) ?k'] =>
        rewrite (argString_agree k v a k') by agree_side Hty
    | |- context [argFloat64 (mkCallToolRequest (<[?k := ?v]> ?a)) ?k'] =>
        rewrite (argFloat64_agree k v a k') by agree_side Hty
    | |- context [argBool (mkCallToolRequest (<[?k := ?v]> ?a)) ?k'] =>
        rewrite (argBool_agree k v a k') by agree_side Hty
    end.

(** C5. For every tool and every property of its schema (the keys the
    handler reads), a value on which the handler's type assertion fails
    leaves the handler doing what it does without the key: same result,
    same requests. *)
Theorem wrong_typed_argument_is_absent (c : Client) (t : Tool) (key ty : string)
    (v : value) (args : gmap string value) (w : World) :
  t ∈ RegisterTools c ->
  (key, ty) ∈ Properties t ->
  asserted ty v = false ->
  Handler t (mkCallToolRequest (<[key := v]> args)) w
  = Handler t (mkCallToolRequest (delete key args)) w.
Proof.
  unfold RegisterTools. intros Ht Hkey Hty.
  repeat (apply elem_of_cons in Ht as [-> | Ht]);
    try (by apply elem_of_nil in Ht); simpl in Hkey;
    repeat (apply elem_of_cons in Hkey as [[= -> ->] | Hkey]);
    try (by apply elem_of_nil in Hkey); simpl;
    unfold makeListSessions, listSessionsParams, makeCreateSession, makeStartSession,
      makePauseSession, makeCompleteSession, makeListClips, listClipsParams,
      makeFavoriteClip, makeActivateChannel, makeDeactivateChannel, makeListTags,
      listTagsParams, makeCreateTag;
    agree Hty; reflexivity.
Qed.

End WrongType.

(** ** Tool handlers: upstream failures *)

Section ToolFacts.
Context {rt : Runtime}.

(** A handler that calls the client once and then only formats. *)
Lemma run_call {T A : Type} `{Json T} (call : M (result T)) (k : result T -> M A)
    (f : result T -> A) (built : result Request) (up : Request -> result Response) :
  (forall res w, k res w = (f res, w)) ->
  (forall w, exists res reqs,
      call w = (res, mkWorld (upstream w) (sent w ++ reqs))
      /\ exchange (upstream w) built reqs res) ->
  exists res reqs,
    run (bind call k) up = (f res, reqs) /\ exchange up built reqs res.
Proof.
  intros Hk Hcall.
  destruct (Hcall (mkWorld up [])) as (res & reqs & Hrun & Hex).
  exists res, reqs. split; [| done].
  unfold run, bind. by rewrite Hrun, Hk.
Qed.

Ltac one_call :=
  right;
  lazymatch goal with
  | |- context [@run ?A (@bind (result ?T) ?B ?call ?k) ?up] =>
      let Hk := fresh "Hk" in
      assert (Hk : forall res w, k res w = ((k res (mkWorld up [])).1, w))
        by (intros [?|?] ?; reflexivity);
      destruct (run_call (T:=T) (A:=A) call k _ _ up Hk
                  ltac:(intros; first [apply get_exchange | apply post_exchange]))
        as (res & reqs & Hrun & Hex);
      change (@run A (@bind (result T) B call k) up
              = ((k res (mkWorld up [])).1, reqs)) in Hrun;
      lazymatch type of Hex with
      | @exchange _ ?J _ ?built _ _ => exists T, J, built, reqs, res
      end;
      eexists; split; [exact Hex |];
      rewrite Hrun; split; [reflexivity |];
      destruct res; simpl; eauto
  end.

Lemma registered_tool_shape (c : Client) (t : Tool) (req : CallToolRequest)
    (up : Request -> result Response) :
  t ∈ RegisterTools c -> tool_shape (Handler t) req up.
Proof.
  unfold RegisterTools, tool_shape. intros Ht.
  repeat (apply elem_of_cons in Ht as [-> | Ht]);
    try (by apply elem_of_nil in Ht); simpl;
    unfold makeListSessions, makeCreateSession, makeStartSession, makePauseSession,
      makeCompleteSession, makeListClips, makeFavoriteClip, makeListChannels,
      makeActivateChannel, makeDeactivateChannel, makeListTags, makeCreateTag;
    try match goal with
      | |- context [if ?b then ret _ else _] =>
          destruct b; [left; eexists; reflexivity |]
      end;
    unfold ListSessions, CreateSession, StartSession, PauseSession, CompleteSession,
      ListClips, FavoriteClip, ListChannels, ActivateChannel, DeactivateChannel,
      ListTags, CreateTag;
    one_call.
Qed.

(** C3. Whatever the tool, when the upstream answered the handler's
    request with a status of 400 or more, the handler returns a result
    and no error; the result is flagged as an error and its text shows
    the status code and the body of the response. *)
Theorem upstream_error_status_is_error_result (c : Client) (t : Tool)
    (req : CallToolRequest) (up : Request -> result Response)
    (r : Request) (resp : Response) :
  t ∈ RegisterTools c ->
  r ∈ (run (Handler t req) up).2 ->
  up r = Ok resp ->
  400 <= StatusCode resp ->
  exists text : string,
    (run (Handler t req) up).1 = (Some (NewToolResultError text), None)
    /\ IsError (NewToolResultError text) = true
    /\ Str.Contains text (fmt_d (StatusCode resp)) = true
    /\ Str.Contains text (Body resp) = true.
Proof.
  intros Ht Hr Hup Hst.
  destruct (registered_tool_shape c t req up Ht)
    as [[text Hrun] | (T & J & built & reqs & res & prefix & Hex & Hreqs & Hres)].
  - rewrite Hrun in Hr. by apply elem_of_nil in Hr.
  - rewrite Hreqs in Hr.
    destruct Hex as [err | r' err Hr' | r' resp' Hr' Hst' | r' resp' err Hr' Hst' Hdec
                    | r' resp' v Hr' Hst' Hdec];
      [by apply elem_of_nil in Hr | apply list_elem_of_singleton in Hr as -> ..];
      rewrite Hup in Hr'; simplify_eq; try lia.
    eexists. split; [exact Hres |]. split; [done |].
    apply StrFacts.API_error_Contains.
Qed.

End ToolFacts.

(** ** The client: errors *)

Section ClientErrors.
Context {rt : Runtime}.

(** Every method of the client is one exchange. *)
Lemma invoke_exchange (c : Client) (call : Call) (up : Request -> result Response) :
  exists (T : Type) (J : Json T) (built : result Request) (reqs : list Request)
         (res : result T),
    exchange up built reqs res
    /\ run (invoke c call) up
       = (match res with Ok _ => None | Err err => Some err end, reqs).
Proof.
  destruct call; unfold invoke, errorOf;
    unfold ListSessions, GetSession, CreateSession, StartSession, PauseSession,
      CompleteSession, ListClips, GetClip, FavoriteClip, ListChannels, ActivateChannel,
      DeactivateChannel, ListTags, CreateTag;
    lazymatch goal with
    | |- context [@run _ (@bind (result ?T) _ ?call ?k) ?up] =>
        destruct (run_call (T:=T) call k
                    (fun r => match r with Ok _ => None | Err err => Some err end)
                    _ up ltac:(done)
                    ltac:(intros; first [apply get_exchange | apply post_exchange]))
          as (res & reqs & Hrun & Hex);
        lazymatch type of Hex with
        | @exchange _ ?J _ ?built _ _ => by exists T, J, built, reqs, res
        end
    end.
Qed.

(** The two wrapped errors never carry the same message. *)
Lemma transport_decode_distinct (cause cause' : error) :
  Error (Errorf_w "request failed: " cause)
  ≠ Error (Errorf_w "failed to decode response: " cause').
Proof. simpl. discriminate. Qed.

(** C4, amended. For every method of the client and every request it
    sent: a response with a status of 400 or more makes the method
    return the error "API error <status>: <body>", which carries the
    status code and the raw body; a response with a lower status is
    decoded, whatever its class, and the method returns no error or a
    "failed to decode response: ..." error; a transport failure makes it
    return a "request failed: ..." error wrapping the cause; and the
    messages of the last two kinds always differ. *)
Theorem client_error_reporting (c : Client) (call : Call)
    (up : Request -> result Response) (r : Request) :
  r ∈ (run (invoke c call) up).2 ->
  match up r with
  | Ok resp =>
      (400 <= StatusCode resp ->
       exists err : error,
         (run (invoke c call) up).1 = Some err
         /\ Error err
            = "API error " +:+ fmt_d (StatusCode resp) +:+ ": " +:+ Body resp
         /\ Str.Contains (Error err) (fmt_d (StatusCode resp)) = true
         /\ Str.Contains (Error err) (Body resp) = true)
      /\ (StatusCode resp < 400 ->
          (run (invoke c call) up).1 = None
          \/ exists cause : error,
              (run (invoke c call) up).1
              = Some (Errorf_w "failed to decode response: " cause))
  | Err cause =>
      (run (invoke c call) up).1 = Some (Errorf_w "request failed: " cause)
      /\ Unwrap (Errorf_w "request failed: " cause) = Some cause
      /\ forall cause' : error,
           Error (Errorf_w "request failed: " cause)
           ≠ Error (Errorf_w "failed to decode response: " cause')
  end.
Proof.
  intros Hr.
  destruct (invoke_exchange c call up) as (T & J & built & reqs & res & Hex & Hrun).
  rewrite Hrun in Hr |- *. simpl in Hr |- *.
  destruct Hex as [err | r' err Hr' | r' resp' Hr' Hst' | r' resp' err Hr' Hst' Hdec
                  | r' resp' v Hr' Hst' Hdec];
    [by apply elem_of_nil in Hr | apply list_elem_of_singleton in Hr as -> ..];
    rewrite Hr'.
  - split; [done |]. split; [done |]. apply transport_decode_distinct.
  - split; [| lia]. intros _. eexists. split; [done |]. split; [done |].
    apply (StrFacts.API_error_Contains "").
  - split; [lia |]. intros _. right. by exists err.
  - split; [lia |]. intros _. by left.
Qed.

End ClientErrors.

(** C4 as worded fails: the upstream answers GET /api/v1/sessions/session-123
    with status 302 and the body of an empty object, and [GetSession]
    returns no error. *)
Lemma redirect_status_is_not_an_error : ~ @non_2xx_is_error Stub.runtime.
Proof.
  intros Hclaim.
  destruct (Hclaim Stub.client (CallGetSession "session-123") (Stub.respond 302 "{}")
              (mkRequest "GET" "http://localhost:8080/api/v1/sessions/session-123" None [])
              (mkResponse 302 "{}"))
    as (err & Herr & _).
  - vm_compute. apply list_elem_of_here.
  - reflexivity.
  - simpl. lia.
  - vm_compute in Herr. discriminate.
Qed.

(** ** start_session and favorite_clip *)

Section Confirmations.
Context {rt : Runtime}.

(** [makeStartSession] with a non-empty identifier is one POST. *)
Lemma makeStartSession_run (c : Client) (req : CallToolRequest) (id : string)
    (up : Request -> result Response) :
  argString req "session_id" = Some id ->
  id ≠ "" ->
  exists (res : result Session.t) (reqs : list Request),
    exchange up (postRequest c ("/api/v1/sessions/" +:+ id +:+ "/start") None) reqs res
    /\ run (makeStartSession c req) up
       = (match res with
          | Err err =>
              (Some (NewToolResultError ("Failed to start session: " +:+ Error err)),
               None)
          | Ok session =>
              (Some (NewToolResultText
                       ("Session '" +:+ Session.Name session
                        +:+ "' started successfully. Status: "
                        +:+ Session.Status session)), None)
          end, reqs).
Proof.
  intros Hid Hne. unfold makeStartSession, StartSession. rewrite Hid. simpl.
  rewrite bool_decide_eq_false_2 by done.
  lazymatch goal with
  | |- context [@run _ (@bind (result ?T) _ ?call ?k) ?up] =>
      destruct (run_call (T:=T) call k
                  (fun res => match res with
                              | Err err =>
                                  (Some (NewToolResultError
                                           ("Failed to start session: " +:+ Error err)),
                                   None)
                              | Ok session =>
                                  (Some (NewToolResultText
                                           ("Session '" +:+ Session.Name session
                                            +:+ "' started successfully. Status: "
                                            +:+ Session.Status session)), None)
                              end)
                  _ up ltac:(by intros [?|?] ?) ltac:(intros; apply post_exchange))
        as (res & reqs & Hrun & Hex)
  end.
  by exists res, reqs.
Qed.

(** C6. start_session on "session-123", the URL being one that net/http
    accepts, sends one request, a POST to the base URL followed by
    /api/v1/sessions/session-123/start; and when the response to it is
    not an API error and decodes to a session whose status is "active",
    the handler returns a result that is not an error and whose text
    contains "started successfully" and "active". *)
Theorem start_session_123 (c : Client) (req : CallToolRequest)
    (up : Request -> result Response) :
  Arguments req !! "session_id" = Some (VString "session-123") ->
  url_Parse_error (baseURL c +:+ "/api/v1/sessions/session-123/start") = None ->
  let r := mkRequest "POST" (baseURL c +:+ "/api/v1/sessions/session-123/start") None
             [("Content-Type", "application/json")] in
  (run (makeStartSession c req) up).2 = [r]
  /\ forall (resp : Response) (session : Session.t),
       up r = Ok resp ->
       StatusCode resp < 400 ->
       Decode (Body resp) = Ok session ->
       Session.Status session = "active" ->
       exists text : string,
         (run (makeStartSession c req) up).1 = (Some (NewToolResultText text), None)
         /\ IsError (NewToolResultText text) = false
         /\ Str.Contains text "started successfully" = true
         /\ Str.Contains text "active" = true.
Proof.
  intros Harg Hurl r.
  destruct (makeStartSession_run c req "session-123" up) as (res & reqs & Hex & Hrun);
    [unfold argString; by rewrite Harg | done |].
  unfold postRequest in Hex.
  change ("/api/v1/sessions/" +:+ "session-123" +:+ "/start")
    with "/api/v1/sessions/session-123/start" in Hex.
  rewrite Hurl in Hex. rewrite Hrun. simpl. fold r in Hex.
  inversion Hex as [| r' err Hr' | r' resp' Hr' Hst' | r' resp' err Hr' Hst' Hdec
                   | r' resp' v Hr' Hst' Hdec]; subst; (split; [done |]);
    intros resp session Hup Hst Hdec' Hactive; rewrite Hup in Hr'; simplify_eq;
    try lia; try congruence.
  assert (v = session) as -> by congruence.
  eexists. split; [reflexivity |]. split; [done |]. rewrite Hactive. split.
  - do 2 apply StrFacts.Contains_append_r. by apply StrFacts.Contains_append_l.
  - do 3 apply StrFacts.Contains_append_r. apply StrFacts.Contains_refl.
Qed.

(** [makeFavoriteClip] with a non-empty identifier is one POST. *)
Lemma makeFavoriteClip_run (c : Client) (req : CallToolRequest)
    (up : Request -> result Response) :
  default "" (argString req "clip_id") ≠ "" ->
  exists (res : result Clip.t) (reqs : list Request),
    exchange up
      (postRequest c ("/api/v1/clips/" +:+ default "" (argString req "clip_id")
                      +:+ "/favorite") None) reqs res
    /\ run (makeFavoriteClip c req) up
       = (match res with
          | Err err =>
              (Some (NewToolResultError ("Failed to toggle favorite: " +:+ Error err)),
               None)
          | Ok clip =>
              (Some (NewToolResultText
                       ("Clip " +:+ (if negb (Clip.IsFavorite clip)
                                     then "removed from" else "added to")
                        +:+ " favorites")), None)
          end, reqs).
Proof.
  intros Hne. unfold makeFavoriteClip, FavoriteClip.
  rewrite bool_decide_eq_false_2 by done.
  lazymatch goal with
  | |- context [@run _ (@bind (result ?T) _ ?call ?k) ?up] =>
      destruct (run_call (T:=T) call k
                  (fun res => match res with
                              | Err err =>
                                  (Some (NewToolResultError
                                           ("Failed to toggle favorite: " +:+ Error err)),
                                   None)
                              | Ok clip =>
                                  (Some (NewToolResultText
                                           ("Clip " +:+ (if negb (Clip.IsFavorite clip)
                                                         then "removed from"
                                                         else "added to")
                                            +:+ " favorites")), None)
                              end)
                  _ up ltac:(by intros [?|?] ?) ltac:(intros; apply post_exchange))
        as (res & reqs & Hrun & Hex)
  end.
  by exists res, reqs.
Qed.

(** C7. When the upstream answered favorite_clip's request with a
    response that is not an API error and decodes to a clip, the handler
    returns a result that is not an error, and its text contains
    "added to" if the clip's [IsFavorite] is true and "removed from" if it
    is false. *)
Theorem favorite_clip_text (c : Client) (req : CallToolRequest)
    (up : Request -> result Response) (r : Request) (resp : Response) (clip : Clip.t) :
  r ∈ (run (makeFavoriteClip c req) up).2 ->
  up r = Ok resp ->
  StatusCode resp < 400 ->
  Decode (Body resp) = Ok clip ->
  exists text : string,
    (run (makeFavoriteClip c req) up).1 = (Some (NewToolResultText text), None)
    /\ IsError (NewToolResultText text) = false
    /\ (Clip.IsFavorite clip = true -> Str.Contains text "added to" = true)
    /\ (Clip.IsFavorite clip = false -> Str.Contains text "removed from" = true).
Proof.
  intros Hr Hup Hst Hdec.
  destruct (decide (default "" (argString req "clip_id") = "")) as [Hempty | Hne].
  { exfalso. revert Hr. unfold run, makeFavoriteClip. rewrite Hempty. simpl.
    apply not_elem_of_nil. }
  destruct (makeFavoriteClip_run c req up Hne) as (res & reqs & Hex & Hrun).
  rewrite Hrun in Hr |- *. simpl in Hr |- *.
  destruct Hex as [err | r' err Hr' | r' resp' Hr' Hst' | r' resp' err Hr' Hst' Hdec'
                  | r' resp' v Hr' Hst' Hdec'];
    [by apply elem_of_nil in Hr | apply list_elem_of_singleton in Hr as -> ..];
    rewrite Hup in Hr'; simplify_eq; try lia; try congruence.
  assert (v = clip) as -> by congruence.
  eexists. split; [reflexivity |]. split; [done |].
  split; intros ->; reflexivity.
Qed.

End Confirmations.

(** ** The list tools: query parameters *)

Section Queries.
Context {rt : Runtime}.

Lemma exchange_reqs {T : Type} `{Json T} (up : Request -> result Response)
    (built : result Request) (reqs : list Request) (res : result T) :
  exchange up built reqs res ->
  reqs = match built with Ok r => [r] | Err _ => [] end.
Proof. by destruct 1. Qed.

(** What a handler sends when it calls [get] and then only formats. *)
Lemma run_get_reqs {T A : Type} `{Json T} (c : Client) (path : string) (query : Values)
    (k : result T -> M A) (up : Request -> result Response) :
  (forall res w, (k res w).2 = w) ->
  (run (bind (get c path query) k) up).2
  = match getRequest c path query with Ok r => [r] | Err _ => [] end.
Proof.
  intros Hk.
  destruct (get_exchange (T:=T) c path query (mkWorld up []))
    as (res & reqs & Hrun & Hex).
  unfold run, bind. rewrite Hrun.
  specialize (Hk res (mkWorld up ([] ++ reqs))). simpl in Hk |- *.
  destruct (k res _) as [b w']. simpl in Hk. subst w'. simpl.
  by apply exchange_reqs in Hex.
Qed.

Lemma non_empty_query (query : Values) (key : string) (vs : list string) :
  query !! key = Some vs -> (0 <? size query)%nat = true.
Proof.
  intros Hkey. apply Nat.ltb_lt.
  assert (size query ≠ 0%nat) by (eapply map_size_ne_0_lookup_2; eauto).
  lia.
Qed.

Lemma get_issues {T : Type} `{Json T} (c : Client) (path : string) (query : Values)
    (k : result T -> M ToolReturn) (key : string) (vs : list string)
    (up : Request -> result Response) :
  (forall res w, (k res w).2 = w) ->
  query !! key = Some vs ->
  (run (bind (get c path query) k) up).2
  = match url_Parse_error (URL (getWithQuery c path query)) with
    | None => [getWithQuery c path query]
    | Some _ => []
    end.
Proof.
  intros Hk Hkey. rewrite run_get_reqs by done.
  unfold getRequest, getURL, NewRequestWithContext, getWithQuery. simpl.
  rewrite (non_empty_query query key vs Hkey).
  by destruct (url_Parse_error _).
Qed.

Lemma argFloat64_not_a_number (req : CallToolRequest) (key : string) :
  (forall f, Arguments req !! key ≠ Some (VNumber f)) -> argFloat64 req key = None.
Proof.
  unfold argFloat64. intros Hnot.
  destruct (Arguments req !! key) as [[] |]; try done. by destruct (Hnot f).
Qed.

(** C9. When the limit argument is absent or is not a number, the query
    of list_sessions and of list_clips has limit=20, the query of
    list_tags has limit=50, and the handler sends the GET request with
    that query (and nothing else). *)
Theorem default_limit (c : Client) (req : CallToolRequest) :
  (forall f, Arguments req !! "limit" ≠ Some (VNumber f)) ->
  (let query := ListSessions_query (listSessionsParams req) in
   query !! "limit" = Some ["20"]
   /\ issues (makeListSessions c) req (getWithQuery c "/api/v1/sessions" query))
  /\ (let query := ListClips_query (listClipsParams req) in
      query !! "limit" = Some ["20"]
      /\ issues (makeListClips c) req (getWithQuery c "/api/v1/clips" query))
  /\ (let query := ListTags_query (listTagsParams req) in
      query !! "limit" = Some ["50"]
      /\ issues (makeListTags c) req (getWithQuery c "/api/v1/tags" query)).
Proof.
  intros Hlimit%argFloat64_not_a_number.
  assert (Hs : ListSessions_query (listSessionsParams req) !! "limit" = Some ["20"]).
  { unfold ListSessions_query, listSessionsParams. rewrite Hlimit. simpl.
    apply lookup_insert_eq. }
  assert (Hc : ListClips_query (listClipsParams req) !! "limit" = Some ["20"]).
  { unfold ListClips_query, listClipsParams. rewrite Hlimit. simpl.
    apply lookup_insert_eq. }
  assert (Ht : ListTags_query (listTagsParams req) !! "limit" = Some ["50"]).
  { unfold ListTags_query, listTagsParams. rewrite Hlimit. simpl.
    apply lookup_insert_eq. }
  repeat split; try done.
  - intros up. unfold makeListSessions, ListSessions.
    eapply get_issues; [by intros [?|?] ? | exact Hs].
  - intros up. unfold makeListClips, ListClips.
    eapply get_issues; [by intros [?|?] ? | exact Hc].
  - intros up. unfold makeListTags, ListTags.
    eapply get_issues; [by intros [?|?] ? | exact Ht].
Qed.

(** C2, amended. list_sessions forwards [status] and [session_type]
    exactly when the argument is a non-empty string; it forwards [limit]
    as the integer part of the argument when the argument is a number
    whose integer part is positive, as 20 when the argument is absent or
    not a number, and not at all when the integer part is zero or
    negative; the query has no other parameter, and it is the query of
    the one GET request the handler builds for /api/v1/sessions. *)
Theorem list_sessions_query_parameters (c : Client) (req : CallToolRequest) :
  let query := ListSessions_query (listSessionsParams req) in
  query !! "status"
  = match argString req "status" with
    | Some s => if decide (s = "") then None else Some [s]
    | None => None
    end
  /\ query !! "session_type"
     = match argString req "session_type" with
       | Some s => if decide (s = "") then None else Some [s]
       | None => None
       end
  /\ query !! "limit"
     = match argFloat64 req "limit" with
       | Some f =>
           if 0 <? int_of_float64 f then Some [fmt_d (int_of_float64 f)] else None
       | None => Some ["20"]
       end
  /\ (forall key, key ∉ ["status"; "session_type"; "limit"] -> query !! key = None)
  /\ (forall up : Request -> result Response,
        (run (makeListSessions c req) up).2
        = match getRequest c "/api/v1/sessions" query with
          | Ok r => [r]
          | Err _ => []
          end).
Proof.
  intros query. repeat split.
  - unfold query, ListSessions_query, listSessionsParams, Values_Set. simpl.
    destruct (argString req "status") as [s |]; simpl;
      repeat case_bool_decide; repeat case_decide; repeat case_match;
      simplify_map_eq; done.
  - unfold query, ListSessions_query, listSessionsParams, Values_Set. simpl.
    destruct (argString req "session_type") as [s |]; simpl;
      repeat case_bool_decide; repeat case_decide; repeat case_match;
      simplify_map_eq; done.
  - unfold query, ListSessions_query, listSessionsParams, Values_Set. simpl.
    destruct (argFloat64 req "limit") as [f |]; simpl;
      repeat case_bool_decide; repeat case_match; simplify_map_eq; done.
  - intros key Hkey.
    assert (key ≠ "status" /\ key ≠ "session_type" /\ key ≠ "limit")
      as (? & ? & ?) by set_solver.
    unfold query, ListSessions_query, Values_Set. simpl.
    repeat case_bool_decide; repeat case_match; simplify_map_eq; done.
  - intros up. unfold makeListSessions, ListSessions.
    apply run_get_reqs. by intros [?|?] ?.
Qed.

End Queries.

(** C2 as worded fails: with no argument at all the query has a limit. *)
Lemma empty_arguments_still_send_limit :
  ~ forwards_exactly (mkCallToolRequest ∅)
      (ListSessions_query (listSessionsParams (mkCallToolRequest ∅))).
Proof.
  intros (Habsent & _).
  specialize (Habsent "limit" ltac:(set_solver) ltac:(done)).
  vm_compute in Habsent. discriminate.
Qed.

(** ** Resource handlers *)

Section ResourceFacts.
Context {rt : Runtime}.

Ltac propagate :=
  intros req up; unfold run, bind;
  match goal with
  | |- context [?call (mkWorld up [])] =>
      destruct (call (mkWorld up [])) as [[resp | err] w']; simpl; eauto
  end.

(** A resource read is one exchange, and fails exactly when it does. *)
Lemma registered_resource_shape (c : Client) (res : Resource)
    (req : ReadResourceRequest) (up : Request -> result Response) :
  res ∈ RegisterResources c ->
  exists (T : Type) (J : Json T) (built : result Request) (reqs : list Request)
         (r : result T),
    exchange up built reqs r
    /\ (run (ResourceHandler res req) up).2 = reqs
    /\ match r with
       | Err _ => hard_error (ResourceHandler res) req up
       | Ok _ => exists docs, (run (ResourceHandler res req) up).1 = (Some docs, None)
       end.
Proof.
  unfold RegisterResources, hard_error. intros Hres.
  repeat (apply elem_of_cons in Hres as [-> | Hres]);
    try (by apply elem_of_nil in Hres); simpl;
    unfold makeSessionsResource, makeClipsResource, makeChannelsResource,
      makeTagsResource, ListSessions, ListClips, ListChannels, ListTags;
    lazymatch goal with
    | |- context [@run ?A (@bind (result ?T) ?B ?call ?k) ?up] =>
        let Hk := fresh "Hk" in
        assert (Hk : forall r w, k r w = ((k r (mkWorld up [])).1, w))
          by (intros [?|?] ?; reflexivity);
        destruct (run_call (T:=T) (A:=A) call k _ _ up Hk
                    ltac:(intros; apply get_exchange))
          as (r & reqs & Hrun & Hex);
        change (@run A (@bind (result T) B call k) up
                = ((k r (mkWorld up [])).1, reqs)) in Hrun;
        lazymatch type of Hex with
        | @exchange _ ?J _ ?built _ _ => exists T, J, built, reqs, r
        end;
        split; [exact Hex |]; rewrite Hrun; split; [reflexivity |];
        destruct r; simpl; eauto
    end.
Qed.

(** C8. Each of the four resource handlers sends what its client call
    sends; when the call fails the handler returns a nil slice of
    contents and a non-nil error, the call's error wrapped behind
    "failed to fetch ...: "; only when the call succeeds does it return a
    document, and then no error. In terms of the upstream: a registered
    resource fails hard when its request could not be built, when the
    transport fails and when the response has a status of 400 or more. *)
Theorem resource_failure_is_hard_error (c : Client) :
  (propagates (makeSessionsResource c)
     (ListSessions c (ListSessionsParams.mk "" "" 100 0)) "failed to fetch sessions: "
   /\ propagates (makeClipsResource c)
        (ListClips c (ListClipsParams.mk "" "" "" None "" 100 0))
        "failed to fetch clips: "
   /\ propagates (makeChannelsResource c) (ListChannels c) "failed to fetch channels: "
   /\ propagates (makeTagsResource c)
        (ListTags c (ListTagsParams.mk "" "" "" None None 100 0))
        "failed to fetch tags: ")
  /\ (forall (res : Resource) (req : ReadResourceRequest)
             (up : Request -> result Response),
        res ∈ RegisterResources c ->
        ((run (ResourceHandler res req) up).2 = [] ->
         hard_error (ResourceHandler res) req up)
        /\ (forall r : Request,
              r ∈ (run (ResourceHandler res req) up).2 ->
              match up r with
              | Err _ => hard_error (ResourceHandler res) req up
              | Ok resp =>
                  400 <= StatusCode resp -> hard_error (ResourceHandler res) req up
              end)).
Proof.
  split.
  - unfold propagates, makeSessionsResource, makeClipsResource, makeChannelsResource,
      makeTagsResource.
    repeat split; propagate.
  - intros res req up Hres.
    destruct (registered_resource_shape c res req up Hres)
      as (T & J & built & reqs & r & Hex & Hreqs & Hshape).
    rewrite Hreqs.
    destruct Hex as [err | r' err Hr' | r' resp' Hr' Hst' | r' resp' err Hr' Hst' Hdec
                    | r' resp' v Hr' Hst' Hdec];
      (split; [try done | intros r0 Hr0]);
      try (by apply elem_of_nil in Hr0);
      apply list_elem_of_singleton in Hr0 as ->; rewrite Hr'; try done; lia.
Qed.

End ResourceFacts.

(** ** The theorems at concrete calls

    Each statement above that has premises is applied here to a call
    against the stand-in runtime, so that its premises are seen to hold
    together. *)

(** C1 at start_session without arguments and at create_tag with a clip
    alone. *)
Lemma missing_required_argument_is_rejected_witness :
  (exists t : Tool,
      t ∈ RegisterTools (rt:=Witness.rt) Witness.c
      /\ "session_id" ∈ Required t
      /\ Arguments Witness.noArgs !! "session_id" = None
      /\ rejects (Handler t) Witness.noArgs Witness.idle
      /\ (run (Handler t Witness.noArgs) (upstream Witness.idle)).2 = [])
  /\ Arguments Witness.clipOnly !! "clip_id" = Some (VString "clip-1")
  /\ Arguments Witness.clipOnly !! "session_id" = None
  /\ rejects (makeCreateTag (rt:=Witness.rt) Witness.c) Witness.clipOnly Witness.idle
  /\ (run (makeCreateTag (rt:=Witness.rt) Witness.c Witness.clipOnly)
        (upstream Witness.idle)).2 = [].
Proof.
  assert (Hstart : mkTool "start_session" [("session_id", "string")] ["session_id"]
                     (makeStartSession (rt:=Witness.rt) Witness.c)
                   ∈ RegisterTools (rt:=Witness.rt) Witness.c).
  { do 2 apply list_elem_of_further. apply list_elem_of_here. }
  split.
  - eexists. split; [exact Hstart |].
    split; [apply list_elem_of_here |]. split; [reflexivity |].
    apply (proj1 (missing_required_argument_is_rejected (rt:=Witness.rt))
             Witness.c _ "session_id" Witness.noArgs Witness.idle Hstart).
    + apply list_elem_of_here.
    + reflexivity.
  - split; [reflexivity |]. split; [reflexivity |].
    apply (proj2 (missing_required_argument_is_rejected (rt:=Witness.rt))
             Witness.c Witness.clipOnly Witness.idle (VString "clip-1"));
      reflexivity.
Defined.

(** C10 at favorite_clip. *)
Lemma empty_required_argument_is_absent_witness :
  exists t : Tool,
    t ∈ RegisterTools (rt:=Witness.rt) Witness.c
    /\ "clip_id" ∈ Required t
    /\ Handler t (mkCallToolRequest (<["clip_id" := VString ""]> ∅)) Witness.idle
       = Handler t (mkCallToolRequest (delete "clip_id" ∅)) Witness.idle
    /\ rejects (Handler t) (mkCallToolRequest (<["clip_id" := VString ""]> ∅)) Witness.idle.
Proof.
  assert (Hfav : mkTool "favorite_clip" [("clip_id", "string")] ["clip_id"]
                   (makeFavoriteClip (rt:=Witness.rt) Witness.c)
                 ∈ RegisterTools (rt:=Witness.rt) Witness.c).
  { do 6 apply list_elem_of_further. apply list_elem_of_here. }
  eexists. split; [exact Hfav |]. split; [apply list_elem_of_here |].
  destruct (empty_required_argument_is_absent (rt:=Witness.rt) Witness.c _ "clip_id" ∅
              Witness.idle Hfav (list_elem_of_here _ _)) as (Hsame & Hrej & _).
  split; [exact Hsame | exact Hrej].
Defined.

(** C5 at list_sessions with a string for the limit. *)
Lemma wrong_typed_argument_is_absent_witness :
  exists t : Tool,
    t ∈ RegisterTools (rt:=Witness.rt) Witness.c
    /\ ("limit", "integer") ∈ Properties t
    /\ asserted "integer" (VString "ten") = false
    /\ Handler t (mkCallToolRequest (<["limit" := VString "ten"]> ∅)) Witness.idle
       = Handler t (mkCallToolRequest (delete "limit" ∅)) Witness.idle.
Proof.
  assert (Hlist : mkTool "list_sessions"
                    [("status", "string"); ("session_type", "string");
                     ("limit", "integer")] [] (makeListSessions (rt:=Witness.rt) Witness.c)
                  ∈ RegisterTools (rt:=Witness.rt) Witness.c).
  { apply list_elem_of_here. }
  assert (Hprop : ("limit", "integer")
                  ∈ [("status", "string"); ("session_type", "string");
                     ("limit", "integer")]).
  { do 2 apply list_elem_of_further. apply list_elem_of_here. }
  eexists. split; [exact Hlist |]. split; [exact Hprop |]. split; [reflexivity |].
  apply (wrong_typed_argument_is_absent (rt:=Witness.rt) Witness.c _ "limit" "integer"
           (VString "ten") ∅ Witness.idle Hlist Hprop).
  reflexivity.
Defined.

(** C3 at list_sessions against an upstream answering 500. *)
Lemma upstream_error_status_is_error_result_witness :
  exists t : Tool,
    t ∈ RegisterTools (rt:=Witness.rt) Witness.c
    /\ Witness.listRequest ∈ (run (Handler t Witness.noArgs) (Stub.respond 500 "boom")).2
    /\ Stub.respond 500 "boom" Witness.listRequest = Ok (mkResponse 500 "boom")
    /\ 400 <= StatusCode (mkResponse 500 "boom")
    /\ exists text : string,
        (run (Handler t Witness.noArgs) (Stub.respond 500 "boom")).1
        = (Some (NewToolResultError text), None)
        /\ Str.Contains text "500" = true
        /\ Str.Contains text "boom" = true.
Proof.
  assert (Hlist : mkTool "list_sessions"
                    [("status", "string"); ("session_type", "string");
                     ("limit", "integer")] [] (makeListSessions (rt:=Witness.rt) Witness.c)
                  ∈ RegisterTools (rt:=Witness.rt) Witness.c).
  { apply list_elem_of_here. }
  assert (Hsent : Witness.listRequest
                  ∈ (run (makeListSessions (rt:=Witness.rt) Witness.c Witness.noArgs)
                       (Stub.respond 500 "boom")).2).
  { vm_compute. apply list_elem_of_here. }
  assert (Hst : 400 <= StatusCode (mkResponse 500 "boom")) by (simpl; lia).
  eexists. split; [exact Hlist |]. split; [exact Hsent |].
  split; [reflexivity |]. split; [exact Hst |].
  destruct (upstream_error_status_is_error_result (rt:=Witness.rt) Witness.c _
              Witness.noArgs (Stub.respond 500 "boom") Witness.listRequest
              (mkResponse 500 "boom") Hlist Hsent eq_refl Hst)
    as (text & Hrun & _ & Hcode & Hbody).
  exists text. split; [exact Hrun |]. split; [exact Hcode | exact Hbody].
Defined.

(** C4, amended, at GetSession against an upstream answering 404. *)
Lemma client_error_reporting_witness :
  let up := Stub.respond 404 "not found" in
  let r := mkRequest "GET" "http://localhost:8080/api/v1/sessions/missing" None [] in
  r ∈ (run (invoke (rt:=Witness.rt) Witness.c (CallGetSession "missing")) up).2
  /\ exists err : error,
      (run (invoke (rt:=Witness.rt) Witness.c (CallGetSession "missing")) up).1 = Some err
      /\ Error err = "API error 404: not found".
Proof.
  intros up r.
  assert (Hsent : r ∈ (run (invoke (rt:=Witness.rt) Witness.c (CallGetSession "missing"))
                         up).2).
  { vm_compute. apply list_elem_of_here. }
  split; [exact Hsent |].
  pose proof (client_error_reporting (rt:=Witness.rt) Witness.c (CallGetSession "missing")
                up r Hsent) as Hreport.
  change (up r) with (Ok (mkResponse 404 "not found")) in Hreport.
  destruct Hreport as [Hapi _].
  destruct (Hapi ltac:(simpl; lia)) as (err & Hrun & Hmsg & _).
  exists err. split; [exact Hrun | exact Hmsg].
Defined.

(** C6 against an upstream answering with an active session. *)
Lemma start_session_123_witness :
  let up := Stub.respond 200 Stub.activeSessionBody in
  Arguments Witness.session123 !! "session_id" = Some (VString "session-123")
  /\ (run (makeStartSession (rt:=Witness.rt) Witness.c Witness.session123) up).2
     = [Witness.startRequest]
  /\ exists text : string,
      (run (makeStartSession (rt:=Witness.rt) Witness.c Witness.session123) up).1
      = (Some (NewToolResultText text), None)
      /\ Str.Contains text "started successfully" = true
      /\ Str.Contains text "active" = true.
Proof.
  intros up. split; [reflexivity |].
  destruct (start_session_123 (rt:=Witness.rt) Witness.c Witness.session123 up
              eq_refl eq_refl) as [Hsent Htext].
  split; [exact Hsent |].
  destruct (Htext (mkResponse 200 Stub.activeSessionBody) Stub.activeSession
              eq_refl ltac:(simpl; lia) eq_refl eq_refl)
    as (text & Hrun & _ & Hstarted & Hactive).
  exists text. split; [exact Hrun |]. split; [exact Hstarted | exact Hactive].
Defined.

(** C7 against an upstream answering with a favorite clip. *)
Lemma favorite_clip_text_witness :
  let up := Stub.respond 200 Stub.favoriteClipBody in
  Witness.favoriteRequest
  ∈ (run (makeFavoriteClip (rt:=Witness.rt) Witness.c Witness.clipOnly) up).2
  /\ Clip.IsFavorite Stub.favoriteClip = true
  /\ exists text : string,
      (run (makeFavoriteClip (rt:=Witness.rt) Witness.c Witness.clipOnly) up).1
      = (Some (NewToolResultText text), None)
      /\ Str.Contains text "added to" = true.
Proof.
  intros up.
  assert (Hsent : Witness.favoriteRequest
                  ∈ (run (makeFavoriteClip (rt:=Witness.rt) Witness.c Witness.clipOnly) up).2).
  { vm_compute. apply list_elem_of_here. }
  split; [exact Hsent |]. split; [reflexivity |].
  destruct (favorite_clip_text (rt:=Witness.rt) Witness.c Witness.clipOnly up
              Witness.favoriteRequest (mkResponse 200 Stub.favoriteClipBody)
              Stub.favoriteClip Hsent eq_refl ltac:(simpl; lia) eq_refl)
    as (text & Hrun & _ & Hadded & _).
  exists text. split; [exact Hrun | exact (Hadded eq_refl)].
Defined.

(** C9 at the empty argument map. *)
Lemma default_limit_witness :
  (forall f, Arguments Witness.noArgs !! "limit" ≠ Some (VNumber f))
  /\ ListSessions_query (listSessionsParams Witness.noArgs) !! "limit" = Some ["20"]
  /\ ListTags_query (listTagsParams Witness.noArgs) !! "limit" = Some ["50"]
  /\ (run (makeListSessions (rt:=Witness.rt) Witness.c Witness.noArgs) Stub.unreachable).2
     = [Witness.listRequest].
Proof.
  assert (Hnot : forall f, Arguments Witness.noArgs !! "limit" ≠ Some (VNumber f)).
  { intros f. discriminate. }
  split; [exact Hnot |].
  destruct (default_limit (rt:=Witness.rt) Witness.c Witness.noArgs Hnot)
    as ((Hs & Hissues) & _ & (Ht & _)).
  split; [exact Hs |]. split; [exact Ht |].
  exact (Hissues Stub.unreachable).
Defined.

(** C2, amended, at a status alone. *)
Lemma list_sessions_query_parameters_witness :
  let req := mkCallToolRequest {["status" := VString "active"]} in
  let query := ListSessions_query (listSessionsParams req) in
  ("offset" ∉ ["status"; "session_type"; "limit"])
  /\ query !! "offset" = None
  /\ query !! "status" = Some ["active"]
  /\ query !! "limit" = Some ["20"].
Proof.
  intros req query.
  assert (Hother : "offset" ∉ ["status"; "session_type"; "limit"]).
  { intros Hin. repeat (apply elem_of_cons in Hin as [Heq | Hin]; [discriminate |]).
    by apply elem_of_nil in Hin. }
  split; [exact Hother |].
  destruct (list_sessions_query_parameters (rt:=Witness.rt) Witness.c req)
    as (Hstatus & _ & Hlimit & Hrest & _).
  split; [exact (Hrest "offset" Hother) |].
  split; [exact Hstatus | exact Hlimit].
Defined.

(** C8 at the sessions resource against an upstream answering 500. *)
Lemma resource_failure_is_hard_error_witness :
  exists res : Resource,
    res ∈ RegisterResources (rt:=Witness.rt) Witness.c
    /\ Witness.mkSessionsRequest
       ∈ (run (ResourceHandler res (mkReadResourceRequest "video://sessions"))
            (Stub.respond 500 "boom")).2
    /\ 400 <= StatusCode (mkResponse 500 "boom")
    /\ hard_error (ResourceHandler res) (mkReadResourceRequest "video://sessions")
         (Stub.respond 500 "boom").
Proof.
  assert (Hres : mkResource "video://sessions" "All Sessions" "application/json"
                   (makeSessionsResource (rt:=Witness.rt) Witness.c)
                 ∈ RegisterResources (rt:=Witness.rt) Witness.c).
  { apply list_elem_of_here. }
  assert (Hsent : Witness.mkSessionsRequest
                  ∈ (run (makeSessionsResource (rt:=Witness.rt) Witness.c
                            (mkReadResourceRequest "video://sessions"))
                       (Stub.respond 500 "boom")).2).
  { vm_compute. apply list_elem_of_here. }
  assert (Hst : 400 <= StatusCode (mkResponse 500 "boom")) by (simpl; lia).
  eexists. split; [exact Hres |]. split; [exact Hsent |]. split; [exact Hst |].
  destruct (proj2 (resource_failure_is_hard_error (rt:=Witness.rt) Witness.c) _
              (mkReadResourceRequest "video://sessions") (Stub.respond 500 "boom") Hres)
    as [_ Hfail].
  exact (Hfail Witness.mkSessionsRequest Hsent Hst).
Defined.

(** ** The handlers on the calls of the Go tests *)

(** "with filters": the three filters reach the query, in the order of
    their keys. *)
Example list_sessions_with_filters :
  (run (makeListSessions (rt:=Witness.rt) Witness.c
          (mkCallToolRequest
             (list_to_map [("status", VString "active"); ("session_type", VString "game");
                           ("limit", VNumber (S754_finite false 5 1))])))
     (Stub.respond 200 "{}")).2
  = [mkRequest "GET"
       "http://localhost:8080/api/v1/sessions?limit=10&session_type=game&status=active"
       None []].
Proof. vm_compute. reflexivity. Qed.

(** "API error": status 500 becomes an error-flagged result. *)
Example list_sessions_api_error :
  (run (makeListSessions (rt:=Witness.rt) Witness.c Witness.noArgs)
     (Stub.respond 500 "boom")).1
  = (Some (NewToolResultError "Failed to list sessions: API error 500: boom"), None).
Proof. vm_compute. reflexivity. Qed.

(** "missing required fields" of create_tag. *)
Example create_tag_missing_session_id :
  run (makeCreateTag (rt:=Witness.rt) Witness.c Witness.clipOnly) (Stub.respond 200 "{}")
  = ((Some (NewToolResultError "clip_id and session_id are required"), None), []).
Proof. vm_compute. reflexivity. Qed.

(** A limit of zero, and a limit whose integer part is zero, send no limit;
    with no other filter the URL has no query at all. *)
Example list_sessions_limit_zero :
  (run (makeListSessions (rt:=Witness.rt) Witness.c
          (mkCallToolRequest {["limit" := VNumber (S754_zero false)]}))
     (Stub.respond 200 "{}")).2
  = [mkRequest "GET" "http://localhost:8080/api/v1/sessions" None []]
  /\ ListSessions_query
       (listSessionsParams
          (mkCallToolRequest {["limit" := VNumber (S754_finite false 3 (-2))]}))
     = ∅.
Proof. split; vm_compute; reflexivity. Qed.

(** [int(f)] discards the fraction: 10.75 and -10.5. *)
Example int_of_float64_truncates :
  int_of_float64 (S754_finite false 43 (-2)) = 10
  /\ int_of_float64 (S754_finite true 21 (-1)) = -10.
Proof. split; reflexivity. Qed.

(** An identifier that net/http refuses in a URL: the handler reports the
    error of the client and sends nothing. *)
Example start_session_control_character :
  exists text : string,
    run (makeStartSession (rt:=Witness.rt) Witness.c
           (mkCallToolRequest {["session_id" := VString LF]}))
      (Stub.respond 200 "{}")
    = ((Some (NewToolResultError ("Failed to start session: " +:+ text)), None), []).
Proof. eexists. vm_compute. reflexivity. Qed.

(** ** Prompt handlers *)

Section PromptFacts.

Ltac prompt_cases Hp :=
  unfold RegisterPrompts in Hp;
  repeat (apply elem_of_cons in Hp as [-> | Hp]);
  try (by apply elem_of_nil in Hp); simpl in *.

(** X1. A prompt called without an argument its declaration flags as
    required, or with the empty string for it, returns no result and the
    error "<name> is required": a hard error, where a tool would return an
    error-flagged result. *)
Theorem prompt_missing_required_argument (p : Prompt) (name : string)
    (req : GetPromptRequest) :
  p ∈ RegisterPrompts ->
  (name, true) ∈ PromptArguments p ->
  promptArg req name = "" ->
  PromptHandler p req = (None, Some (errorString (name +:+ " is required"))).
Proof.
  intros Hp Hname Hempty. prompt_cases Hp;
    repeat (apply elem_of_cons in Hname as [[= ->] | Hname]);
    try (by apply elem_of_nil in Hname);
    unfold handleAnalyzeSession, handleReviewClips, handleGameReport;
    rewrite Hempty; reflexivity.
Qed.

(** X2. A prompt called with a non-empty string for every argument its
    declaration flags as required returns no error and a result of exactly
    one message, of the user and of type "text". *)
Theorem prompt_with_required_arguments (p : Prompt) (req : GetPromptRequest) :
  p ∈ RegisterPrompts ->
  (forall name, (name, true) ∈ PromptArguments p -> promptArg req name ≠ "") ->
  exists prompt : string,
    PromptHandler p req
    = (Some (mkGetPromptResult [mkPromptMessage RoleUser (mkTextContent "text" prompt)]),
       None).
Proof.
  intros Hp Hreq. prompt_cases Hp;
    try (assert (promptArg req "session_id" ≠ "") by (apply Hreq; set_solver));
    unfold handleAnalyzeSession, handleReviewClips, handleGameReport, handleSystemStatus;
    rewrite ?bool_decide_eq_false_2 by done; eexists; reflexivity.
Qed.

Lemma promptArg_insert_ne (key k v : string) (args : gmap string string) :
  key ≠ k -> promptArg (mkGetPromptRequest (<[key := v]> args)) k
             = promptArg (mkGetPromptRequest args) k.
Proof. intros Hne. unfold promptArg. simpl. by rewrite lookup_insert_ne. Qed.

Lemma promptArg_delete_ne (key k : string) (args : gmap string string) :
  key ≠ k -> promptArg (mkGetPromptRequest (delete key args)) k
             = promptArg (mkGetPromptRequest args) k.
Proof. intros Hne. unfold promptArg. simpl. by rewrite lookup_delete_ne. Qed.

Lemma promptArg_insert_eq (key v : string) (args : gmap string string) :
  promptArg (mkGetPromptRequest (<[key := v]> args)) key = v.
Proof. unfold promptArg. simpl. by rewrite lookup_insert_eq. Qed.

Lemma promptArg_delete_eq (key : string) (args : gmap string string) :
  promptArg (mkGetPromptRequest (delete key args)) key = "".
Proof. unfold promptArg. simpl. by rewrite lookup_delete_eq. Qed.


(** X4. analyze_session without a focus, or with the empty string for it,
    returns what it returns for the focus "all". *)
Theorem analyze_session_default_focus (args : gmap string string) :
  handleAnalyzeSession (mkGetPromptRequest (delete "focus" args))
  = handleAnalyzeSession (mkGetPromptRequest (<["focus" := "all"]> args))
  /\ handleAnalyzeSession (mkGetPromptRequest (<["focus" := ""]> args))
     = handleAnalyzeSession (mkGetPromptRequest (<["focus" := "all"]> args)).
Proof.
  unfold handleAnalyzeSession.
  repeat first [ rewrite promptArg_insert_eq | rewrite promptArg_delete_eq
               | rewrite promptArg_insert_ne by done
               | rewrite promptArg_delete_ne by done ].
  split; reflexivity.
Qed.

End PromptFacts.

(** ** The resource the prompts point at *)

Section PromptResources.
Context {rt : Runtime}.

Lemma Contains_between (pre u x s post : string) :
  Str.Contains ((pre +:+ u) +:+ x +:+ (s +:+ post)) (u +:+ x +:+ s) = true.
Proof.
  apply StrFacts.Contains_spec. exists pre, post.
  by rewrite !StrFacts.append_assoc.
Qed.

(** The two templates break off right before the identifier of the URI. *)
Lemma templates_end_with_sessions_uri :
  (exists pre, Template.analyze_2 = pre +:+ "video://sessions/")
  /\ (exists pre, Template.report_1 = pre +:+ "video://sessions/").
Proof.
  split.
  - exists (String.substring 0 (String.length Template.analyze_2 - 17)
              Template.analyze_2).
    vm_compute. reflexivity.
  - exists (String.substring 0 (String.length Template.report_1 - 17)
              Template.report_1).
    vm_compute. reflexivity.
Qed.

Lemma summary_uri_not_registered (c : Client) (sessionID : string) (res : Resource) :
  res ∈ RegisterResources c ->
  ResourceURI res ≠ "video://sessions/" +:+ sessionID +:+ "/summary".
Proof.
  unfold RegisterResources. intros Hres.
  repeat (apply elem_of_cons in Hres as [-> | Hres]);
    try (by apply elem_of_nil in Hres); simpl; intros Heq;
    vm_compute in Heq; discriminate.
Qed.

(** X5. analyze_session and game_report, called with a session
    identifier, tell the assistant to read the resource
    video://sessions/<identifier>/summary; no resource that
    [RegisterResources] registers has that URI. *)
Theorem prompts_point_at_unregistered_summary (c : Client) (req : GetPromptRequest) :
  promptArg req "session_id" ≠ "" ->
  let uri := "video://sessions/" +:+ promptArg req "session_id" +:+ "/summary" in
  (exists text, handleAnalyzeSession req = (Some (userPrompt text), None)
                /\ Str.Contains text uri = true)
  /\ (exists text, handleGameReport req = (Some (userPrompt text), None)
                   /\ Str.Contains text uri = true)
  /\ (forall res, res ∈ RegisterResources c -> ResourceURI res ≠ uri).
Proof.
  intros Hid uri.
  destruct templates_end_with_sessions_uri as [[pre2 Hpre2] [pre1 Hpre1]].
  destruct (StrFacts.HasPrefix_inv "/summary" Template.analyze_3 eq_refl)
    as [post3 Hpost3].
  destruct (StrFacts.HasPrefix_inv "/summary" Template.report_2 eq_refl)
    as [post2 Hpost2].
  split; [| split].
  - unfold handleAnalyzeSession. rewrite bool_decide_eq_false_2 by done.
    eexists. split; [reflexivity |].
    do 4 apply StrFacts.Contains_append_r. rewrite Hpre2, Hpost3.
    apply Contains_between.
  - unfold handleGameReport. rewrite bool_decide_eq_false_2 by done.
    eexists. split; [reflexivity |].
    do 2 apply StrFacts.Contains_append_r. rewrite Hpre1, Hpost2.
    apply Contains_between.
  - intros res Hres. by apply (summary_uri_not_registered c).
Qed.

End PromptResources.

(** ** Tool handlers: what every call does *)

Section ToolInvariants.
Context {rt : Runtime}.

(** X6. A tool never fails hard and never retries: whatever the arguments
    and the upstream, the handler returns a result and a nil error, and
    sends at most one request. *)
Theorem tool_returns_result_after_at_most_one_request (c : Client) (t : Tool)
    (req : CallToolRequest) (up : Request -> result Response) :
  t ∈ RegisterTools c ->
  (exists res : CallToolResult, (run (Handler t req) up).1 = (Some res, None))
  /\ (length (run (Handler t req) up).2 <= 1)%nat.
Proof.
  intros Ht.
  destruct (registered_tool_shape c t req up Ht)
    as [[text Hrun] | (T & J & built & reqs & res & prefix & Hex & Hreqs & Hres)].
  - rewrite Hrun. simpl. eauto.
  - rewrite Hreqs. split.
    + destruct res as [v | err]; [destruct Hres as [text ->] | rewrite Hres]; eauto.
    + rewrite (exchange_reqs _ _ _ _ Hex). destruct built; simpl; lia.
Qed.

(** X7. A result that is not flagged as an error vouches for the
    upstream: the handler sent exactly one request and the response to it
    had a status below 400. *)
Theorem non_error_result_had_response_below_400 (c : Client) (t : Tool)
    (req : CallToolRequest) (up : Request -> result Response) (res : CallToolResult) :
  t ∈ RegisterTools c ->
  (run (Handler t req) up).1 = (Some res, None) ->
  IsError res = false ->
  exists (r : Request) (resp : Response),
    (run (Handler t req) up).2 = [r] /\ up r = Ok resp /\ StatusCode resp < 400.
Proof.
  intros Ht Hres Hok.
  destruct (registered_tool_shape c t req up Ht)
    as [[text Hrun] | (T & J & built & reqs & r & prefix & Hex & Hreqs & Hshape)].
  - rewrite Hrun in Hres. simpl in Hres. injection Hres as <-. discriminate Hok.
  - rewrite Hreqs.
    destruct Hex as [err | r' err Hr' | r' resp' Hr' Hst' | r' resp' err Hr' Hst' Hdec
                    | r' resp' v Hr' Hst' Hdec];
      try (rewrite Hshape in Hres; injection Hres as <-; discriminate Hok).
    by exists r', resp'.
Qed.

(** X8. A transport failure (no connection, a timeout, a cancelled
    context) is reported like an API error: the handler returns a result
    flagged as an error, whose text ends with "request failed: " and the
    message of the cause. *)
Theorem transport_failure_is_error_result (c : Client) (t : Tool)
    (req : CallToolRequest) (up : Request -> result Response)
    (r : Request) (cause : error) :
  t ∈ RegisterTools c ->
  r ∈ (run (Handler t req) up).2 ->
  up r = Err cause ->
  exists prefix : string,
    (run (Handler t req) up).1
    = (Some (NewToolResultError (prefix +:+ "request failed: " +:+ Error cause)), None).
Proof.
  intros Ht Hr Hup.
  destruct (registered_tool_shape c t req up Ht)
    as [[text Hrun] | (T & J & built & reqs & res & prefix & Hex & Hreqs & Hres)].
  - rewrite Hrun in Hr. by apply elem_of_nil in Hr.
  - rewrite Hreqs in Hr.
    destruct Hex as [err | r' err Hr' | r' resp' Hr' Hst' | r' resp' err Hr' Hst' Hdec
                    | r' resp' v Hr' Hst' Hdec];
      [by apply elem_of_nil in Hr | apply list_elem_of_singleton in Hr as -> ..];
      rewrite Hup in Hr'; simplify_eq.
    exists prefix. exact Hres.
Qed.


End ToolInvariants.

(** ** Tool handlers: arguments outside the schema *)

Section UndeclaredArguments.
Context {rt : Runtime}.

Section Ignore.
Variables (key : string) (v : value) (args : gmap string value).



End Ignore.





End UndeclaredArguments.

(** ** One call, then formatting *)

Section CallFacts.
Context {rt : Runtime}.

(** What a handler sends when it calls [post] and then only formats. *)
Lemma run_post_reqs {T A : Type} `{Json T} (c : Client) (path : string)
    (body : option PostBody) (k : result T -> M A) (up : Request -> result Response) :
  (forall res w, (k res w).2 = w) ->
  (run (bind (post c path body) k) up).2
  = match postRequest c path body with Ok r => [r] | Err _ => [] end.
Proof.
  intros Hk.
  destruct (post_exchange (T:=T) c path body (mkWorld up []))
    as (res & reqs & Hrun & Hex).
  unfold run, bind. rewrite Hrun.
  specialize (Hk res (mkWorld up ([] ++ reqs))). simpl in Hk |- *.
  destruct (k res _) as [b w']. simpl in Hk. subst w'. simpl.
  by apply exchange_reqs in Hex.
Qed.

(** What an exchange returns for a response that decodes. *)
Lemma exchange_decoded_inv {T : Type} `{Json T} (up : Request -> result Response)
    (built : result Request) (reqs : list Request) (res : result T)
    (r : Request) (resp : Response) (v : T) :
  exchange up built reqs res ->
  r ∈ reqs -> up r = Ok resp -> StatusCode resp < 400 -> Decode (Body resp) = Ok v ->
  res = Ok v.
Proof.
  intros Hex Hr Hup Hst Hdec.
  destruct Hex as [err | r' err Hr' | r' resp' Hr' Hst' | r' resp' err Hr' Hst' Hdec'
                  | r' resp' v' Hr' Hst' Hdec'];
    [by apply elem_of_nil in Hr | apply list_elem_of_singleton in Hr as -> ..];
    rewrite Hup in Hr'; simplify_eq; try lia; congruence.
Qed.

(** What a handler returns, after [post] or [get], for a response that
    decodes: what it makes of the decoded value. *)
Lemma run_post_decoded {T A : Type} `{Json T} (c : Client) (path : string)
    (body : option PostBody) (k : result T -> M A) (up : Request -> result Response)
    (r : Request) (resp : Response) (v : T) :
  (forall res w, k res w = ((k res (mkWorld up [])).1, w)) ->
  r ∈ (run (bind (post c path body) k) up).2 ->
  up r = Ok resp -> StatusCode resp < 400 -> Decode (Body resp) = Ok v ->
  (run (bind (post c path body) k) up).1 = (k (Ok v) (mkWorld up [])).1.
Proof.
  intros Hk Hr Hup Hst Hdec.
  destruct (run_call (post c path body) k _ _ up Hk
              ltac:(intros; apply post_exchange)) as (res & reqs & Hrun & Hex).
  rewrite Hrun in Hr |- *. simpl in Hr |- *.
  by rewrite (exchange_decoded_inv _ _ _ _ _ _ _ Hex Hr Hup Hst Hdec).
Qed.

Lemma run_get_decoded {T A : Type} `{Json T} (c : Client) (path : string)
    (query : Values) (k : result T -> M A) (up : Request -> result Response)
    (r : Request) (resp : Response) (v : T) :
  (forall res w, k res w = ((k res (mkWorld up [])).1, w)) ->
  r ∈ (run (bind (get c path query) k) up).2 ->
  up r = Ok resp -> StatusCode resp < 400 -> Decode (Body resp) = Ok v ->
  (run (bind (get c path query) k) up).1 = (k (Ok v) (mkWorld up [])).1.
Proof.
  intros Hk Hr Hup Hst Hdec.
  destruct (run_call (get c path query) k _ _ up Hk
              ltac:(intros; apply get_exchange)) as (res & reqs & Hrun & Hex).
  rewrite Hrun in Hr |- *. simpl in Hr |- *.
  by rewrite (exchange_decoded_inv _ _ _ _ _ _ _ Hex Hr Hup Hst Hdec).
Qed.

End CallFacts.

(** ** The tools that post to an identifier's endpoint *)

Section Transitions.
Context {rt : Runtime}.

(** X11. start_session, pause_session, complete_session, favorite_clip,
    activate_channel and deactivate_channel, given a non-empty identifier,
    send one POST without body to the base URL followed by the path, the
    identifier put into the path as it is, without escaping; they send
    nothing when net/http refuses that URL. *)
Theorem transition_request (c : Client) (h : ToolHandlerFunc)
    (key before after id : string) (req : CallToolRequest)
    (up : Request -> result Response) :
  (h, (key, (before, after))) ∈ transitions c ->
  argString req key = Some id ->
  id ≠ "" ->
  (run (h req) up).2
  = match url_Parse_error (baseURL c +:+ before +:+ id +:+ after) with
    | None => [postWithoutBody c (before +:+ id +:+ after)]
    | Some _ => []
    end.
Proof.
  unfold transitions. intros Hin Harg Hne.
  repeat (apply elem_of_cons in Hin as [[= -> -> -> ->] | Hin]);
    try (by apply elem_of_nil in Hin);
    unfold makeStartSession, makePauseSession, makeCompleteSession, makeFavoriteClip,
      makeActivateChannel, makeDeactivateChannel, StartSession, PauseSession,
      CompleteSession, FavoriteClip, ActivateChannel, DeactivateChannel;
    rewrite Harg; simpl; rewrite bool_decide_eq_false_2 by done;
    (rewrite run_post_reqs by (by intros [?|?] ?));
    unfold postRequest, postWithoutBody; by destruct (url_Parse_error _).
Qed.

(** X12. On a response below 400 that decodes, pause_session answers
    "Session '<name>' paused. Status: <status>", activate_channel
    "Channel '<name>' activated. Status: <status>" and deactivate_channel
    "Channel '<name>' deactivated. Status: <status>", name and status being
    those of the decoded entity, in a result that is not an error. *)
Theorem transition_confirmation_texts (c : Client) (req : CallToolRequest)
    (up : Request -> result Response) (r : Request) (resp : Response) :
  up r = Ok resp ->
  StatusCode resp < 400 ->
  (forall session : Session.t,
      r ∈ (run (makePauseSession c req) up).2 ->
      Decode (Body resp) = Ok session ->
      (run (makePauseSession c req) up).1
      = (Some (NewToolResultText
                 ("Session '" +:+ Session.Name session +:+ "' paused. Status: "
                  +:+ Session.Status session)), None))
  /\ (forall channel : Channel.t,
        r ∈ (run (makeActivateChannel c req) up).2 ->
        Decode (Body resp) = Ok channel ->
        (run (makeActivateChannel c req) up).1
        = (Some (NewToolResultText
                   ("Channel '" +:+ Channel.Name channel +:+ "' activated. Status: "
                    +:+ Channel.Status channel)), None))
  /\ (forall channel : Channel.t,
        r ∈ (run (makeDeactivateChannel c req) up).2 ->
        Decode (Body resp) = Ok channel ->
        (run (makeDeactivateChannel c req) up).1
        = (Some (NewToolResultText
                   ("Channel '" +:+ Channel.Name channel +:+ "' deactivated. Status: "
                    +:+ Channel.Status channel)), None)).
Proof.
  intros Hup Hst.
  repeat split; intros v;
    unfold makePauseSession, makeActivateChannel, makeDeactivateChannel, PauseSession,
      ActivateChannel, DeactivateChannel;
    case_bool_decide; try (intros Hr; by apply elem_of_nil in Hr);
    intros Hr Hdec;
    (erewrite run_post_decoded;
     [reflexivity | by intros [?|?] ? | exact Hr | exact Hup | exact Hst | exact Hdec]).
Qed.

End Transitions.

(** ** list_clips and list_tags: query parameters *)

Section MoreQueries.
Context {rt : Runtime}.

Ltac query_lookup :=
  simpl; repeat case_bool_decide; repeat case_decide; repeat case_match;
  simplify_map_eq; done.

(** X13. list_clips forwards [session_id], [status] and [search] when the
    argument is a non-empty string, [favorite] when it is a boolean (false
    is sent as favorite=false, not left out), [limit] as list_sessions
    does, with the default 20; it never sends [channel_id] or [offset],
    nor any other parameter; the query is that of the one GET request the
    handler builds for /api/v1/clips. *)
Theorem list_clips_query_parameters (c : Client) (req : CallToolRequest) :
  let query := ListClips_query (listClipsParams req) in
  query !! "session_id" = forwardedString (argString req "session_id")
  /\ query !! "status" = forwardedString (argString req "status")
  /\ query !! "search" = forwardedString (argString req "search")
  /\ query !! "favorite" = forwardedBool (argBool req "favorite")
  /\ query !! "limit" = forwardedLimit 20 (argFloat64 req "limit")
  /\ (forall key, key ∉ ["session_id"; "status"; "search"; "favorite"; "limit"] ->
                  query !! key = None)
  /\ (forall up : Request -> result Response,
        (run (makeListClips c req) up).2
        = match getRequest c "/api/v1/clips" query with
          | Ok r => [r]
          | Err _ => []
          end).
Proof.
  intros query. unfold query, ListClips_query, listClipsParams, Values_Set,
    forwardedString, forwardedBool, forwardedLimit.
  repeat split.
  - destruct (argString req "session_id"); query_lookup.
  - destruct (argString req "status"); query_lookup.
  - destruct (argString req "search"); query_lookup.
  - destruct (argBool req "favorite"); query_lookup.
  - destruct (argFloat64 req "limit"); query_lookup.
  - intros key Hkey.
    assert (key ≠ "session_id" /\ key ≠ "status" /\ key ≠ "search"
            /\ key ≠ "favorite" /\ key ≠ "limit") as (? & ? & ? & ? & ?) by set_solver.
    query_lookup.
  - intros up. unfold makeListClips, ListClips.
    apply run_get_reqs. by intros [?|?] ?.
Qed.

(** X14. list_tags forwards [session_id], [clip_id] and [play_type] when
    the argument is a non-empty string, [is_important] and [is_reviewed]
    when it is a boolean, [limit] with the default 50, and nothing else;
    the query is that of the one GET request the handler builds for
    /api/v1/tags. *)
Theorem list_tags_query_parameters (c : Client) (req : CallToolRequest) :
  let query := ListTags_query (listTagsParams req) in
  query !! "session_id" = forwardedString (argString req "session_id")
  /\ query !! "clip_id" = forwardedString (argString req "clip_id")
  /\ query !! "play_type" = forwardedString (argString req "play_type")
  /\ query !! "is_important" = forwardedBool (argBool req "is_important")
  /\ query !! "is_reviewed" = forwardedBool (argBool req "is_reviewed")
  /\ query !! "limit" = forwardedLimit 50 (argFloat64 req "limit")
  /\ (forall key,
        key ∉ ["session_id"; "clip_id"; "play_type"; "is_important"; "is_reviewed";
               "limit"] ->
        query !! key = None)
  /\ (forall up : Request -> result Response,
        (run (makeListTags c req) up).2
        = match getRequest c "/api/v1/tags" query with
          | Ok r => [r]
          | Err _ => []
          end).
Proof.
  intros query. unfold query, ListTags_query, listTagsParams, Values_Set,
    forwardedString, forwardedBool, forwardedLimit.
  repeat split.
  - destruct (argString req "session_id"); query_lookup.
  - destruct (argString req "clip_id"); query_lookup.
  - destruct (argString req "play_type"); query_lookup.
  - destruct (argBool req "is_important"); query_lookup.
  - destruct (argBool req "is_reviewed"); query_lookup.
  - destruct (argFloat64 req "limit"); query_lookup.
  - intros key Hkey.
    assert (key ≠ "session_id" /\ key ≠ "clip_id" /\ key ≠ "play_type"
            /\ key ≠ "is_important" /\ key ≠ "is_reviewed" /\ key ≠ "limit")
      as (? & ? & ? & ? & ? & ?) by set_solver.
    query_lookup.
  - intros up. unfold makeListTags, ListTags.
    apply run_get_reqs. by intros [?|?] ?.
Qed.

(** X15. The client forwards the [Offset] of [ListSessionsParams] and of
    [ListClipsParams] when it is positive, and the [ChannelID] of
    [ListClipsParams] when it is not empty, but never the [Offset] of
    [ListTagsParams], whatever its value. *)
Theorem client_offset_forwarding (ps : ListSessionsParams.t) (pc : ListClipsParams.t)
    (pt : ListTagsParams.t) :
  ListSessions_query ps !! "offset"
  = (if 0 <? ListSessionsParams.Offset ps
     then Some [fmt_d (ListSessionsParams.Offset ps)] else None)
  /\ ListClips_query pc !! "offset"
     = (if 0 <? ListClipsParams.Offset pc
        then Some [fmt_d (ListClipsParams.Offset pc)] else None)
  /\ ListClips_query pc !! "channel_id"
     = (if decide (ListClipsParams.ChannelID pc = "")
        then None else Some [ListClipsParams.ChannelID pc])
  /\ ListTags_query pt !! "offset" = None.
Proof.
  unfold ListSessions_query, ListClips_query, ListTags_query, Values_Set.
  repeat split; query_lookup.
Qed.

End MoreQueries.

(** ** create_session and create_tag: the request *)

Section Creation.
Context {rt : Runtime}.

(** X16. create_session with a non-empty name and session type posts to
    /api/v1/sessions the JSON of a [CreateSessionRequest] holding the two,
    the opponent and the location when they are strings (the empty string
    included), and never a scheduled start; the session type is not
    checked against the schema's enumeration. It sends nothing when the
    body cannot be marshalled or net/http refuses the URL. *)
Theorem create_session_request (c : Client) (req : CallToolRequest)
    (up : Request -> result Response) (name sessionType : string) :
  argString req "name" = Some name ->
  name ≠ "" ->
  argString req "session_type" = Some sessionType ->
  sessionType ≠ "" ->
  let createReq := CreateSessionRequest.mk name sessionType None
                     (argString req "opponent") (argString req "location") in
  (run (makeCreateSession c req) up).2
  = match json_Marshal (BodyCreateSession createReq),
          url_Parse_error (baseURL c +:+ "/api/v1/sessions") with
    | Ok data, None => [postWithBody c "/api/v1/sessions" data]
    | _, _ => []
    end.
Proof.
  intros Hname Hne Htype Hne' createReq.
  unfold makeCreateSession, CreateSession. rewrite Hname, Htype. simpl.
  rewrite !bool_decide_eq_false_2 by done. simpl.
  rewrite run_post_reqs by (by intros [?|?] ?).
  unfold postRequest, postWithBody. fold createReq.
  destruct (json_Marshal _); [| done]. by destruct (url_Parse_error _).
Qed.

(** X17. create_tag with a non-empty clip and session identifier posts to
    /api/v1/tags the JSON of a [CreateTagRequest] holding the two, the play
    type, formation, result and notes when they are strings, the down,
    distance and yards gained as the integer part of the argument when it
    is a number, and never a quarter or labels. It sends nothing when the
    body cannot be marshalled or net/http refuses the URL. *)
Theorem create_tag_request (c : Client) (req : CallToolRequest)
    (up : Request -> result Response) (clipID sessionID : string) :
  argString req "clip_id" = Some clipID ->
  clipID ≠ "" ->
  argString req "session_id" = Some sessionID ->
  sessionID ≠ "" ->
  let createReq := CreateTagRequest.mk clipID sessionID None
                     (int_of_float64 <$> argFloat64 req "down")
                     (int_of_float64 <$> argFloat64 req "distance")
                     (argString req "play_type")
                     (argString req "formation")
                     (argString req "result")
                     (int_of_float64 <$> argFloat64 req "yards_gained")
                     []
                     (argString req "notes") in
  (run (makeCreateTag c req) up).2
  = match json_Marshal (BodyCreateTag createReq),
          url_Parse_error (baseURL c +:+ "/api/v1/tags") with
    | Ok data, None => [postWithBody c "/api/v1/tags" data]
    | _, _ => []
    end.
Proof.
  intros Hclip Hne Hsession Hne' createReq.
  unfold makeCreateTag, CreateTag. rewrite Hclip, Hsession. simpl.
  rewrite !bool_decide_eq_false_2 by done. simpl.
  rewrite run_post_reqs by (by intros [?|?] ?).
  unfold postRequest, postWithBody. fold createReq.
  destruct (json_Marshal _); [| done]. by destruct (url_Parse_error _).
Qed.

End Creation.

(** ** Success texts *)

Section SuccessTexts.
Context {rt : Runtime}.

Ltac decoded Hr Hup Hst Hdec :=
  first [ erewrite run_get_decoded;
          [reflexivity | by intros [?|?] ? | exact Hr | exact Hup | exact Hst | exact Hdec]
        | erewrite run_post_decoded;
          [reflexivity | by intros [?|?] ? | exact Hr | exact Hup | exact Hst | exact Hdec] ].

(** X18. On a response below 400 that decodes, each of the four list
    tools returns, in a result that is not an error, exactly the indented
    JSON of the decoded page. *)
Theorem list_tools_return_marshalled_page (c : Client) (req : CallToolRequest)
    (up : Request -> result Response) (r : Request) (resp : Response) :
  up r = Ok resp ->
  StatusCode resp < 400 ->
  (forall page : PaginatedResponse.t Session.t,
      r ∈ (run (makeListSessions c req) up).2 ->
      Decode (Body resp) = Ok page ->
      (run (makeListSessions c req) up).1
      = (Some (NewToolResultText (MarshalIndent page)), None))
  /\ (forall page : PaginatedResponse.t Clip.t,
        r ∈ (run (makeListClips c req) up).2 ->
        Decode (Body resp) = Ok page ->
        (run (makeListClips c req) up).1
        = (Some (NewToolResultText (MarshalIndent page)), None))
  /\ (forall page : PaginatedResponse.t Channel.t,
        r ∈ (run (makeListChannels c req) up).2 ->
        Decode (Body resp) = Ok page ->
        (run (makeListChannels c req) up).1
        = (Some (NewToolResultText (MarshalIndent page)), None))
  /\ (forall page : PaginatedResponse.t Tag.t,
        r ∈ (run (makeListTags c req) up).2 ->
        Decode (Body resp) = Ok page ->
        (run (makeListTags c req) up).1
        = (Some (NewToolResultText (MarshalIndent page)), None)).
Proof.
  intros Hup Hst.
  repeat split; intros page Hr Hdec;
    unfold makeListSessions, makeListClips, makeListChannels, makeListTags,
      ListSessions, ListClips, ListChannels, ListTags in Hr |- *;
    decoded Hr Hup Hst Hdec.
Qed.

(** X19. On a response below 400 that decodes, create_session,
    complete_session and create_tag return, in a result that is not an
    error, a heading line followed by the indented JSON of the decoded
    entity. *)
Theorem create_and_complete_return_marshalled_entity (c : Client)
    (req : CallToolRequest) (up : Request -> result Response)
    (r : Request) (resp : Response) :
  up r = Ok resp ->
  StatusCode resp < 400 ->
  (forall session : Session.t,
      r ∈ (run (makeCreateSession c req) up).2 ->
      Decode (Body resp) = Ok session ->
      (run (makeCreateSession c req) up).1
      = (Some (NewToolResultText
                 ("Session created successfully:" +:+ LF +:+ MarshalIndent session)),
         None))
  /\ (forall session : Session.t,
        r ∈ (run (makeCompleteSession c req) up).2 ->
        Decode (Body resp) = Ok session ->
        (run (makeCompleteSession c req) up).1
        = (Some (NewToolResultText
                   ("Session completed:" +:+ LF +:+ MarshalIndent session)), None))
  /\ (forall tag : Tag.t,
        r ∈ (run (makeCreateTag c req) up).2 ->
        Decode (Body resp) = Ok tag ->
        (run (makeCreateTag c req) up).1
        = (Some (NewToolResultText ("Tag created:" +:+ LF +:+ MarshalIndent tag)),
           None)).
Proof.
  intros Hup Hst.
  repeat split; intros v;
    unfold makeCreateSession, makeCompleteSession, makeCreateTag, CreateSession,
      CompleteSession, CreateTag;
    match goal with
    | |- context [if ?b then _ else _] => destruct b
    end; try (intros Hr; by apply elem_of_nil in Hr);
    intros Hr Hdec; decoded Hr Hup Hst Hdec.
Qed.

End SuccessTexts.

(** ** Resource handlers: requests, documents, errors *)

Section MoreResources.
Context {rt : Runtime}.

Lemma run_get_attempt {T A : Type} `{Json T} (c : Client) (path : string)
    (query : Values) (k : result T -> M A) (up : Request -> result Response) :
  (forall res w, (k res w).2 = w) ->
  (run (bind (get c path query) k) up).2
  = attempt (mkRequest "GET" (getURL c path query) None []).
Proof.
  intros Hk. rewrite run_get_reqs by done.
  unfold getRequest, NewRequestWithContext, attempt. simpl.
  by destruct (url_Parse_error _).
Qed.

(** X20. Whatever URI the request names, the sessions, clips and tags
    resources ask the upstream for one page with limit=100 and no other
    parameter, and the channels resource asks for /api/v1/channels without
    a query. *)
Theorem resource_requests (c : Client) (req : ReadResourceRequest)
    (up : Request -> result Response) :
  (run (makeSessionsResource c req) up).2
  = attempt (getWithQuery c "/api/v1/sessions" {["limit" := ["100"]]})
  /\ (run (makeClipsResource c req) up).2
     = attempt (getWithQuery c "/api/v1/clips" {["limit" := ["100"]]})
  /\ (run (makeTagsResource c req) up).2
     = attempt (getWithQuery c "/api/v1/tags" {["limit" := ["100"]]})
  /\ (run (makeChannelsResource c req) up).2
     = attempt (mkRequest "GET" (baseURL c +:+ "/api/v1/channels") None []).
Proof.
  unfold makeSessionsResource, makeClipsResource, makeTagsResource, makeChannelsResource,
    ListSessions, ListClips, ListTags, ListChannels.
  repeat split; (rewrite run_get_attempt by (by intros [?|?] ?)); reflexivity.
Qed.

(** X21. On a response below 400 that decodes, a resource handler returns
    no error and one document: the URI of the request (not the registered
    one), the MIME type application/json and the indented JSON of the
    decoded page. *)
Theorem resource_document (c : Client) (req : ReadResourceRequest)
    (up : Request -> result Response) (r : Request) (resp : Response) :
  up r = Ok resp ->
  StatusCode resp < 400 ->
  (forall page : PaginatedResponse.t Session.t,
      r ∈ (run (makeSessionsResource c req) up).2 ->
      Decode (Body resp) = Ok page ->
      (run (makeSessionsResource c req) up).1
      = (Some [mkTextResourceContents (URI req) "application/json" (MarshalIndent page)],
         None))
  /\ (forall page : PaginatedResponse.t Clip.t,
        r ∈ (run (makeClipsResource c req) up).2 ->
        Decode (Body resp) = Ok page ->
        (run (makeClipsResource c req) up).1
        = (Some [mkTextResourceContents (URI req) "application/json"
                   (MarshalIndent page)], None))
  /\ (forall page : PaginatedResponse.t Channel.t,
        r ∈ (run (makeChannelsResource c req) up).2 ->
        Decode (Body resp) = Ok page ->
        (run (makeChannelsResource c req) up).1
        = (Some [mkTextResourceContents (URI req) "application/json"
                   (MarshalIndent page)], None))
  /\ (forall page : PaginatedResponse.t Tag.t,
        r ∈ (run (makeTagsResource c req) up).2 ->
        Decode (Body resp) = Ok page ->
        (run (makeTagsResource c req) up).1
        = (Some [mkTextResourceContents (URI req) "application/json"
                   (MarshalIndent page)], None)).
Proof.
  intros Hup Hst.
  repeat split; intros page Hr Hdec;
    unfold makeSessionsResource, makeClipsResource, makeChannelsResource,
      makeTagsResource, ListSessions, ListClips, ListChannels, ListTags in Hr |- *;
    (erewrite run_get_decoded;
     [reflexivity | by intros [?|?] ? | exact Hr | exact Hup | exact Hst | exact Hdec]).
Qed.

(** What a resource handler returns, given what its client call did. *)
Lemma resource_run (c : Client) (res : Resource) (kind : string)
    (req : ReadResourceRequest) (up : Request -> result Response) :
  res ∈ RegisterResources c ->
  ResourceURI res = "video://" +:+ kind ->
  exists (T : Type) (J : Json T) (built : result Request) (reqs : list Request)
         (r : result T),
    exchange up built reqs r
    /\ (run (ResourceHandler res req) up).2 = reqs
    /\ forall err, r = Err err ->
         (run (ResourceHandler res req) up).1
         = (None, Some (Errorf_w ("failed to fetch " +:+ kind +:+ ": ") err)).
Proof.
  unfold RegisterResources. intros Hres Huri.
  repeat (apply elem_of_cons in Hres as [-> | Hres]);
    try (by apply elem_of_nil in Hres); simpl in Huri |- *;
    apply (inj (String.append "video://")) in Huri; subst kind;
    unfold makeSessionsResource, makeClipsResource, makeChannelsResource,
      makeTagsResource, ListSessions, ListClips, ListChannels, ListTags;
    lazymatch goal with
    | |- context [@run ?A (@bind (result ?T) ?B ?call ?k) ?up] =>
        let Hk := fresh "Hk" in
        assert (Hk : forall r w, k r w = ((k r (mkWorld up [])).1, w))
          by (intros [?|?] ?; reflexivity);
        destruct (run_call (T:=T) (A:=A) call k _ _ up Hk
                    ltac:(intros; apply get_exchange))
          as (r & reqs & Hrun & Hex);
        change (@run A (@bind (result T) B call k) up
                = ((k r (mkWorld up [])).1, reqs)) in Hrun;
        lazymatch type of Hex with
        | @exchange _ ?J _ ?built _ _ => exists T, J, built, reqs, r
        end;
        split; [exact Hex |]; rewrite Hrun; split; [reflexivity |];
        by intros err ->
    end.
Qed.

(** X22. A failed read of the resource video://<kind> is the error
    "failed to fetch <kind>: " followed by the client's message, wrapping
    the client's error: after a transport failure it unwraps, in two
    steps, to the cause; after a response of 400 or more its message ends
    with "API error <status>: <body>". *)
Theorem resource_error_chain (c : Client) (res : Resource) (kind : string)
    (req : ReadResourceRequest) (up : Request -> result Response) (r : Request) :
  res ∈ RegisterResources c ->
  ResourceURI res = "video://" +:+ kind ->
  r ∈ (run (ResourceHandler res req) up).2 ->
  match up r with
  | Err cause =>
      exists err : error,
        (run (ResourceHandler res req) up).1 = (None, Some err)
        /\ Error err
           = "failed to fetch " +:+ kind +:+ ": request failed: " +:+ Error cause
        /\ (Unwrap err ≫= Unwrap) = Some cause
  | Ok resp =>
      400 <= StatusCode resp ->
      exists err : error,
        (run (ResourceHandler res req) up).1 = (None, Some err)
        /\ Error err
           = "failed to fetch " +:+ kind +:+ ": API error "
             +:+ fmt_d (StatusCode resp) +:+ ": " +:+ Body resp
        /\ (Unwrap err ≫= Unwrap) = None
  end.
Proof.
  intros Hres Huri Hr.
  destruct (resource_run c res kind req up Hres Huri)
    as (T & J & built & reqs & res' & Hex & Hreqs & Hfail).
  rewrite Hreqs in Hr.
  destruct Hex as [err | r' err Hr' | r' resp' Hr' Hst' | r' resp' err Hr' Hst' Hdec
                  | r' resp' v Hr' Hst' Hdec];
    [by apply elem_of_nil in Hr | apply list_elem_of_singleton in Hr as -> ..];
    rewrite Hr'; try lia.
  - eexists. split; [by apply Hfail |]. split; [| done].
    unfold Errorf_w. simpl. by rewrite !StrFacts.append_assoc.
  - intros _. eexists. split; [by apply Hfail |]. split; [| done].
    unfold Errorf_w. simpl. by rewrite !StrFacts.append_assoc.
Qed.

End MoreResources.

(** ** Where the requests go *)

Section Destinations.
Context {rt : Runtime}.

Lemma HasPrefix_append_same (a s p : string) :
  Str.HasPrefix (a +:+ s) (a +:+ p) = Str.HasPrefix s p.
Proof.
  induction a as [|x a IH]; [done |].
  rewrite !StrFacts.append_cons. simpl. by rewrite decide_True.
Qed.

Lemma HasPrefix_append_l (s t p : string) :
  Str.HasPrefix s p = true -> Str.HasPrefix (s +:+ t) p = true.
Proof.
  intros [post ->]%StrFacts.HasPrefix_inv.
  rewrite StrFacts.append_assoc. apply StrFacts.HasPrefix_append.
Qed.

(** Every method of the client goes through [get] or [post] with a path
    under /api/v1/. *)
Lemma invoke_built (c : Client) (call : Call) (up : Request -> result Response) :
  exists path : string,
    Str.HasPrefix path "/api/v1/" = true
    /\ ((exists query,
           (run (invoke c call) up).2
           = match getRequest c path query with Ok r => [r] | Err _ => [] end)
        \/ (exists body,
              (run (invoke c call) up).2
              = match postRequest c path body with Ok r => [r] | Err _ => [] end)).
Proof.
  destruct call; unfold invoke, errorOf;
    unfold ListSessions, GetSession, CreateSession, StartSession, PauseSession,
      CompleteSession, ListClips, GetClip, FavoriteClip, ListChannels, ActivateChannel,
      DeactivateChannel, ListTags, CreateTag;
    lazymatch goal with
    | |- context [get _ ?path ?query] =>
        exists path; split; [vm_compute; reflexivity |]; left; exists query;
        apply run_get_reqs; by intros [?|?] ?
    | |- context [post _ ?path ?body] =>
        exists path; split; [vm_compute; reflexivity |]; right; exists body;
        apply run_post_reqs; by intros [?|?] ?
    end.
Qed.

(** The URL of a request built for a path under /api/v1/. *)
Lemma built_url (c : Client) (path : string) (r : Request) :
  Str.HasPrefix path "/api/v1/" = true ->
  (forall query, getRequest c path query = Ok r ->
                 Str.HasPrefix (URL r) (baseURL c +:+ "/api/v1/") = true)
  /\ (forall body, postRequest c path body = Ok r ->
                   Str.HasPrefix (URL r) (baseURL c +:+ "/api/v1/") = true).
Proof.
  intros Hpath. split.
  - intros query. unfold getRequest, NewRequestWithContext, getURL.
    destruct (url_Parse_error _); [done |]. intros [= <-]. simpl.
    destruct (0 <? size query)%nat.
    + apply HasPrefix_append_l. by rewrite HasPrefix_append_same.
    + by rewrite HasPrefix_append_same.
  - intros body. unfold postRequest.
    destruct body as [b |]; [destruct (json_Marshal b); [| done] |];
      (destruct (url_Parse_error _); [done |]); intros [= <-]; simpl;
      by rewrite HasPrefix_append_same.
Qed.

Lemma built_well_formed (c : Client) (path : string) (r : Request) :
  (forall query, getRequest c path query = Ok r -> well_formed r)
  /\ (forall body, postRequest c path body = Ok r -> well_formed r).
Proof.
  split.
  - intros query. unfold getRequest, NewRequestWithContext.
    destruct (url_Parse_error _); [done |]. intros [= <-]. by left.
  - intros body. unfold postRequest.
    destruct body as [b |]; [destruct (json_Marshal b); [| done] |];
      (destruct (url_Parse_error _); [done |]); intros [= <-]; by right.
Qed.

Lemma sent_built (built : result Request) (r : Request) :
  r ∈ match built with Ok r' => [r'] | Err _ => [] end -> built = Ok r.
Proof.
  destruct built as [r' | err]; [| by intros ?%elem_of_nil].
  by intros ->%list_elem_of_singleton.
Qed.

(** X23. Every request any method of the client sends goes to the base
    URL followed by a path under /api/v1/, and is either a GET without
    body and headers or a POST with the content type application/json. *)
Theorem client_requests_are_well_formed (c : Client) (call : Call)
    (up : Request -> result Response) (r : Request) :
  r ∈ (run (invoke c call) up).2 ->
  well_formed r /\ Str.HasPrefix (URL r) (baseURL c +:+ "/api/v1/") = true.
Proof.
  intros Hr.
  destruct (invoke_built c call up) as (path & Hpath & [[query Hreqs] | [body Hreqs]]);
    rewrite Hreqs in Hr; apply sent_built in Hr.
  - split.
    + by apply (proj1 (built_well_formed c path r) query).
    + by apply (proj1 (built_url c path r Hpath) query).
  - split.
    + by apply (proj2 (built_well_formed c path r) body).
    + by apply (proj2 (built_url c path r Hpath) body).
Qed.

(** X24. The client [main] builds sends every request to the value of
    VIDEO_PLATFORM_URL when that variable is set and not empty, otherwise
    to the value of the flag -api-url, otherwise to http://localhost:8080;
    an empty variable counts as unset. *)
Theorem main_requests_go_to_the_configured_url (flagValue : option string)
    (envURL : string) (call : Call) (up : Request -> result Response) (r : Request) :
  r ∈ (run (invoke (main_apiClient flagValue envURL) call) up).2 ->
  let configured :=
    if decide (envURL = "") then
      match flagValue with
      | Some url => url
      | None => "http://localhost:8080"
      end
    else envURL in
  Str.HasPrefix (URL r) (configured +:+ "/api/v1/") = true.
Proof.
  intros Hr configured.
  assert (Hbase : baseURL (main_apiClient flagValue envURL) = configured).
  { unfold main_apiClient, main_apiURL, New, configured. simpl.
    case_bool_decide; case_decide; try done; by destruct flagValue. }
  rewrite <- Hbase.
  destruct (invoke_built (main_apiClient flagValue envURL) call up)
    as (path & Hpath & [[query Hreqs] | [body Hreqs]]);
    rewrite Hreqs in Hr; apply sent_built in Hr.
  - by apply (proj1 (built_url _ path r Hpath) query).
  - by apply (proj2 (built_url _ path r Hpath) body).
Qed.

End Destinations.

(** ** The rejection message *)

Section RejectionMessage.
Context {rt : Runtime}.

(** X25. The text by which a tool rejects a call names the required keys
    of its schema: "<key> is required" for one key, "<key1> and <key2> are
    required" for two, whichever of them is missing or empty. *)
Theorem rejection_names_the_required_keys (c : Client) (t : Tool) (key : string)
    (req : CallToolRequest) (up : Request -> result Response) :
  t ∈ RegisterTools c ->
  key ∈ Required t ->
  default "" (argString req key) = "" ->
  run (Handler t req) up
  = ((Some (NewToolResultError (requiredMessage (Required t))), None), []).
Proof.
  unfold RegisterTools. intros Ht Hkey Hempty.
  repeat (apply elem_of_cons in Ht as [-> | Ht]);
    try (by apply elem_of_nil in Ht); simpl in Hkey;
    repeat (apply elem_of_cons in Hkey as [-> | Hkey]);
    try (by apply elem_of_nil in Hkey); simpl;
    unfold run, makeCreateSession, makeStartSession, makePauseSession,
      makeCompleteSession, makeFavoriteClip, makeActivateChannel, makeDeactivateChannel,
      makeCreateTag;
    rewrite Hempty; simpl; rewrite ?orb_true_r; reflexivity.
Qed.

End RejectionMessage.

(** ** The further theorems at concrete calls *)

Lemma list_channels_registered :
  mkTool "list_channels" [] [] (makeListChannels (rt:=Witness.rt) Witness.c)
  ∈ RegisterTools (rt:=Witness.rt) Witness.c.
Proof. do 7 apply list_elem_of_further. apply list_elem_of_here. Qed.

Lemma game_report_registered :
  mkPrompt "game_report" [("session_id", true)] handleGameReport ∈ RegisterPrompts.
Proof. do 2 apply list_elem_of_further. apply list_elem_of_here. Qed.

Lemma sessions_resource_registered :
  mkResource "video://sessions" "All Sessions" "application/json"
    (makeSessionsResource (rt:=Witness.rt) Witness.c)
  ∈ RegisterResources (rt:=Witness.rt) Witness.c.
Proof. apply list_elem_of_here. Qed.

(** X1 at game_report without arguments. *)
Lemma prompt_missing_required_argument_witness :
  promptArg (mkGetPromptRequest ∅) "session_id" = ""
  /\ handleGameReport (mkGetPromptRequest ∅)
     = (None, Some (errorString "session_id is required")).
Proof.
  split; [reflexivity |].
  apply (prompt_missing_required_argument _ "session_id" (mkGetPromptRequest ∅)
           game_report_registered (list_elem_of_here _ _)).
  reflexivity.
Defined.

(** X2 at game_report for session-1. *)
Lemma prompt_with_required_arguments_witness :
  promptArg Fixture.report "session_id" ≠ ""
  /\ exists prompt : string,
      handleGameReport Fixture.report
      = (Some (mkGetPromptResult
                 [mkPromptMessage RoleUser (mkTextContent "text" prompt)]), None).
Proof.
  assert (Hid : promptArg Fixture.report "session_id" ≠ "") by discriminate.
  split; [exact Hid |].
  apply (prompt_with_required_arguments _ Fixture.report game_report_registered).
  intros name Hname. apply list_elem_of_singleton in Hname.
  injection Hname as ->. exact Hid.
Defined.


(** X5 at session-1. *)
Lemma prompts_point_at_unregistered_summary_witness :
  promptArg Fixture.report "session_id" ≠ ""
  /\ (exists text,
        handleGameReport Fixture.report = (Some (userPrompt text), None)
        /\ Str.Contains text "video://sessions/session-1/summary" = true)
  /\ forall res, res ∈ RegisterResources (rt:=Witness.rt) Witness.c ->
                 ResourceURI res ≠ "video://sessions/session-1/summary".
Proof.
  assert (Hid : promptArg Fixture.report "session_id" ≠ "") by discriminate.
  split; [exact Hid |].
  destruct (prompts_point_at_unregistered_summary (rt:=Witness.rt) Witness.c
              Fixture.report Hid) as (_ & Hreport & Hnone).
  split; [exact Hreport | exact Hnone].
Defined.

(** X6 at list_channels against an upstream that cannot be reached. *)
Lemma tool_returns_result_after_at_most_one_request_witness :
  exists t : Tool,
    t ∈ RegisterTools (rt:=Witness.rt) Witness.c
    /\ (exists res, (run (Handler t Witness.noArgs) Stub.unreachable).1 = (Some res, None))
    /\ (length (run (Handler t Witness.noArgs) Stub.unreachable).2 <= 1)%nat.
Proof.
  eexists. split; [exact list_channels_registered |].
  apply (tool_returns_result_after_at_most_one_request (rt:=Witness.rt) Witness.c _
           Witness.noArgs Stub.unreachable list_channels_registered).
Defined.

(** X7 at list_channels against an upstream answering 200. *)
Lemma non_error_result_had_response_below_400_witness :
  exists t : Tool,
    t ∈ RegisterTools (rt:=Witness.rt) Witness.c
    /\ (run (Handler t Witness.noArgs) Fixture.emptyObject).1
       = (Some (NewToolResultText "{}"), None)
    /\ exists (r : Request) (resp : Response),
        (run (Handler t Witness.noArgs) Fixture.emptyObject).2 = [r]
        /\ Fixture.emptyObject r = Ok resp /\ StatusCode resp < 400.
Proof.
  eexists. split; [exact list_channels_registered |]. split; [reflexivity |].
  apply (non_error_result_had_response_below_400 (rt:=Witness.rt) Witness.c _
           Witness.noArgs Fixture.emptyObject (NewToolResultText "{}")
           list_channels_registered); reflexivity.
Defined.

(** X8 at list_channels against an upstream that cannot be reached. *)
Lemma transport_failure_is_error_result_witness :
  let r := mkRequest "GET" "http://localhost:8080/api/v1/channels" None [] in
  exists t : Tool,
    t ∈ RegisterTools (rt:=Witness.rt) Witness.c
    /\ r ∈ (run (Handler t Witness.noArgs) Stub.unreachable).2
    /\ exists prefix : string,
        (run (Handler t Witness.noArgs) Stub.unreachable).1
        = (Some (NewToolResultError
                   (prefix +:+ "request failed: " +:+ "connection refused")), None).
Proof.
  intros r.
  assert (Hsent : r ∈ (run (makeListChannels (rt:=Witness.rt) Witness.c Witness.noArgs)
                         Stub.unreachable).2).
  { vm_compute. apply list_elem_of_here. }
  eexists. split; [exact list_channels_registered |]. split; [exact Hsent |].
  apply (transport_failure_is_error_result (rt:=Witness.rt) Witness.c _ Witness.noArgs
           Stub.unreachable r (errorString "connection refused")
           list_channels_registered Hsent).
  reflexivity.
Defined.



(** X11 at activate_channel for camera-1. *)
Lemma transition_request_witness :
  argString Fixture.channel1 "channel_id" = Some "camera-1"
  /\ (run (makeActivateChannel (rt:=Witness.rt) Witness.c Fixture.channel1)
        Fixture.emptyObject).2
     = [mkRequest "POST" "http://localhost:8080/api/v1/channels/camera-1/activate" None
          [("Content-Type", "application/json")]].
Proof.
  split; [reflexivity |].
  assert (Hin : (makeActivateChannel (rt:=Witness.rt) Witness.c,
                 ("channel_id", ("/api/v1/channels/", "/activate")))
                ∈ transitions (rt:=Witness.rt) Witness.c).
  { do 4 apply list_elem_of_further. apply list_elem_of_here. }
  apply (transition_request (rt:=Witness.rt) Witness.c _ _ _ _ "camera-1"
           Fixture.channel1 Fixture.emptyObject Hin); [reflexivity | discriminate].
Defined.

(** X12 at activate_channel against an upstream answering with an empty
    object. *)
Lemma transition_confirmation_texts_witness :
  let r := mkRequest "POST" "http://localhost:8080/api/v1/channels/camera-1/activate" None
             [("Content-Type", "application/json")] in
  r ∈ (run (makeActivateChannel (rt:=Witness.rt) Witness.c Fixture.channel1)
         Fixture.emptyObject).2
  /\ (run (makeActivateChannel (rt:=Witness.rt) Witness.c Fixture.channel1)
        Fixture.emptyObject).1
     = (Some (NewToolResultText "Channel '' activated. Status: "), None).
Proof.
  intros r.
  assert (Hsent : r ∈ (run (makeActivateChannel (rt:=Witness.rt) Witness.c
                              Fixture.channel1) Fixture.emptyObject).2).
  { vm_compute. apply list_elem_of_here. }
  split; [exact Hsent |].
  destruct (transition_confirmation_texts (rt:=Witness.rt) Witness.c Fixture.channel1
              Fixture.emptyObject r (mkResponse 200 "{}"))
    as (_ & Hactivate & _); [reflexivity | simpl; lia |].
  apply (Hactivate Channel.zero Hsent). reflexivity.
Defined.

(** X13 at a favorite filter set to false. *)
Lemma list_clips_query_parameters_witness :
  let req := mkCallToolRequest {["favorite" := VBool false]} in
  let query := ListClips_query (listClipsParams req) in
  ("offset" ∉ ["session_id"; "status"; "search"; "favorite"; "limit"])
  /\ query !! "offset" = None
  /\ query !! "favorite" = Some ["false"].
Proof.
  intros req query.
  assert (Hother : "offset" ∉ ["session_id"; "status"; "search"; "favorite"; "limit"]).
  { intros Hin. repeat (apply elem_of_cons in Hin as [Heq | Hin]; [discriminate |]).
    by apply elem_of_nil in Hin. }
  split; [exact Hother |].
  destruct (list_clips_query_parameters (rt:=Witness.rt) Witness.c req)
    as (_ & _ & _ & Hfavorite & _ & Hrest & _).
  split; [exact (Hrest "offset" Hother) | exact Hfavorite].
Defined.

(** X14 at a play type. *)
Lemma list_tags_query_parameters_witness :
  let req := mkCallToolRequest {["play_type" := VString "run"]} in
  let query := ListTags_query (listTagsParams req) in
  ("offset" ∉ ["session_id"; "clip_id"; "play_type"; "is_important"; "is_reviewed";
               "limit"])
  /\ query !! "offset" = None
  /\ query !! "play_type" = Some ["run"].
Proof.
  intros req query.
  assert (Hother : "offset" ∉ ["session_id"; "clip_id"; "play_type"; "is_important";
                               "is_reviewed"; "limit"]).
  { intros Hin. repeat (apply elem_of_cons in Hin as [Heq | Hin]; [discriminate |]).
    by apply elem_of_nil in Hin. }
  split; [exact Hother |].
  destruct (list_tags_query_parameters (rt:=Witness.rt) Witness.c req)
    as (_ & _ & Hplay & _ & _ & _ & Hrest & _).
  split; [exact (Hrest "offset" Hother) | exact Hplay].
Defined.

(** X16 at the call of the Go test "successful creation". *)
Lemma create_session_request_witness :
  argString Fixture.newGame "name" = Some "New Game"
  /\ argString Fixture.newGame "session_type" = Some "game"
  /\ (run (makeCreateSession (rt:=Witness.rt) Witness.c Fixture.newGame)
        Fixture.emptyObject).2
     = [mkRequest "POST" "http://localhost:8080/api/v1/sessions" (Some "{}")
          [("Content-Type", "application/json")]].
Proof.
  split; [reflexivity |]. split; [reflexivity |].
  apply (create_session_request (rt:=Witness.rt) Witness.c Fixture.newGame
           Fixture.emptyObject "New Game" "game");
    first [reflexivity | discriminate].
Defined.

(** X17 at a tag with a play type and a down. *)
Lemma create_tag_request_witness :
  argString Fixture.runTag "clip_id" = Some "clip-1"
  /\ argString Fixture.runTag "session_id" = Some "session-1"
  /\ (run (makeCreateTag (rt:=Witness.rt) Witness.c Fixture.runTag)
        Fixture.emptyObject).2
     = [mkRequest "POST" "http://localhost:8080/api/v1/tags" (Some "{}")
          [("Content-Type", "application/json")]].
Proof.
  split; [reflexivity |]. split; [reflexivity |].
  apply (create_tag_request (rt:=Witness.rt) Witness.c Fixture.runTag
           Fixture.emptyObject "clip-1" "session-1");
    first [reflexivity | discriminate].
Defined.

(** X18 at list_channels against an upstream answering with an empty
    object. *)
Lemma list_tools_return_marshalled_page_witness :
  let r := mkRequest "GET" "http://localhost:8080/api/v1/channels" None [] in
  r ∈ (run (makeListChannels (rt:=Witness.rt) Witness.c Witness.noArgs)
         Fixture.emptyObject).2
  /\ (run (makeListChannels (rt:=Witness.rt) Witness.c Witness.noArgs)
        Fixture.emptyObject).1
     = (Some (NewToolResultText "{}"), None).
Proof.
  intros r.
  assert (Hsent : r ∈ (run (makeListChannels (rt:=Witness.rt) Witness.c Witness.noArgs)
                         Fixture.emptyObject).2).
  { vm_compute. apply list_elem_of_here. }
  split; [exact Hsent |].
  destruct (list_tools_return_marshalled_page (rt:=Witness.rt) Witness.c Witness.noArgs
              Fixture.emptyObject r (mkResponse 200 "{}"))
    as (_ & _ & Hchannels & _); [reflexivity | simpl; lia |].
  apply (Hchannels (PaginatedResponse.mk [] 0 0 0) Hsent). reflexivity.
Defined.

(** X19 at create_session against an upstream answering with an empty
    object. *)
Lemma create_and_complete_return_marshalled_entity_witness :
  let r := mkRequest "POST" "http://localhost:8080/api/v1/sessions" (Some "{}")
             [("Content-Type", "application/json")] in
  r ∈ (run (makeCreateSession (rt:=Witness.rt) Witness.c Fixture.newGame)
         Fixture.emptyObject).2
  /\ (run (makeCreateSession (rt:=Witness.rt) Witness.c Fixture.newGame)
        Fixture.emptyObject).1
     = (Some (NewToolResultText ("Session created successfully:" +:+ LF +:+ "{}")),
        None).
Proof.
  intros r.
  assert (Hsent : r ∈ (run (makeCreateSession (rt:=Witness.rt) Witness.c Fixture.newGame)
                         Fixture.emptyObject).2).
  { vm_compute. apply list_elem_of_here. }
  split; [exact Hsent |].
  destruct (create_and_complete_return_marshalled_entity (rt:=Witness.rt) Witness.c
              Fixture.newGame Fixture.emptyObject r (mkResponse 200 "{}"))
    as (Hcreate & _); [reflexivity | simpl; lia |].
  apply (Hcreate Session.zero Hsent). reflexivity.
Defined.

(** X21 at the sessions resource against an upstream answering with an
    empty object. *)
Lemma resource_document_witness :
  Witness.mkSessionsRequest
  ∈ (run (makeSessionsResource (rt:=Witness.rt) Witness.c Fixture.sessionsResource)
       Fixture.emptyObject).2
  /\ (run (makeSessionsResource (rt:=Witness.rt) Witness.c Fixture.sessionsResource)
        Fixture.emptyObject).1
     = (Some [mkTextResourceContents "video://sessions" "application/json" "{}"], None).
Proof.
  assert (Hsent : Witness.mkSessionsRequest
                  ∈ (run (makeSessionsResource (rt:=Witness.rt) Witness.c
                            Fixture.sessionsResource) Fixture.emptyObject).2).
  { vm_compute. apply list_elem_of_here. }
  split; [exact Hsent |].
  destruct (resource_document (rt:=Witness.rt) Witness.c Fixture.sessionsResource
              Fixture.emptyObject Witness.mkSessionsRequest (mkResponse 200 "{}"))
    as (Hsessions & _); [reflexivity | simpl; lia |].
  apply (Hsessions (PaginatedResponse.mk [] 0 0 0) Hsent). reflexivity.
Defined.

(** X22 at the sessions resource against an upstream that cannot be
    reached. *)
Lemma resource_error_chain_witness :
  exists res : Resource,
    res ∈ RegisterResources (rt:=Witness.rt) Witness.c
    /\ ResourceURI res = "video://" +:+ "sessions"
    /\ exists err : error,
        (run (ResourceHandler res Fixture.sessionsResource) Stub.unreachable).1
        = (None, Some err)
        /\ Error err = "failed to fetch sessions: request failed: connection refused"
        /\ (Unwrap err ≫= Unwrap) = Some (errorString "connection refused").
Proof.
  assert (Hsent : Witness.mkSessionsRequest
                  ∈ (run (makeSessionsResource (rt:=Witness.rt) Witness.c
                            Fixture.sessionsResource) Stub.unreachable).2).
  { vm_compute. apply list_elem_of_here. }
  eexists. split; [exact sessions_resource_registered |]. split; [reflexivity |].
  apply (resource_error_chain (rt:=Witness.rt) Witness.c _ "sessions"
           Fixture.sessionsResource Stub.unreachable Witness.mkSessionsRequest
           sessions_resource_registered eq_refl Hsent).
Defined.

(** X23 at ListChannels. *)
Lemma client_requests_are_well_formed_witness :
  let r := mkRequest "GET" "http://localhost:8080/api/v1/channels" None [] in
  r ∈ (run (invoke (rt:=Witness.rt) Witness.c CallListChannels) Fixture.emptyObject).2
  /\ well_formed r
  /\ Str.HasPrefix (URL r) "http://localhost:8080/api/v1/" = true.
Proof.
  intros r.
  assert (Hsent : r ∈ (run (invoke (rt:=Witness.rt) Witness.c CallListChannels)
                         Fixture.emptyObject).2).
  { vm_compute. apply list_elem_of_here. }
  split; [exact Hsent |].
  exact (client_requests_are_well_formed (rt:=Witness.rt) Witness.c CallListChannels
           Fixture.emptyObject r Hsent).
Defined.

(** X24 with the variable set and no flag. *)
Lemma main_requests_go_to_the_configured_url_witness :
  let r := mkRequest "GET" "http://video:9000/api/v1/channels" None [] in
  r ∈ (run (invoke (rt:=Witness.rt) (main_apiClient None "http://video:9000")
              CallListChannels) Fixture.emptyObject).2
  /\ Str.HasPrefix (URL r) "http://video:9000/api/v1/" = true.
Proof.
  intros r.
  assert (Hsent : r ∈ (run (invoke (rt:=Witness.rt)
                              (main_apiClient None "http://video:9000")
                              CallListChannels) Fixture.emptyObject).2).
  { vm_compute. apply list_elem_of_here. }
  split; [exact Hsent |].
  exact (main_requests_go_to_the_configured_url (rt:=Witness.rt) None
           "http://video:9000" CallListChannels Fixture.emptyObject r Hsent).
Defined.

(** X25 at start_session without arguments. *)
Lemma rejection_names_the_required_keys_witness :
  exists t : Tool,
    t ∈ RegisterTools (rt:=Witness.rt) Witness.c
    /\ "session_id" ∈ Required t
    /\ run (Handler t Witness.noArgs) Stub.unreachable
       = ((Some (NewToolResultError "session_id is required"), None), []).
Proof.
  assert (Hstart : mkTool "start_session" [("session_id", "string")] ["session_id"]
                     (makeStartSession (rt:=Witness.rt) Witness.c)
                   ∈ RegisterTools (rt:=Witness.rt) Witness.c).
  { do 2 apply list_elem_of_further. apply list_elem_of_here. }
  eexists. split; [exact Hstart |]. split; [apply list_elem_of_here |].
  apply (rejection_names_the_required_keys (rt:=Witness.rt) Witness.c _ "session_id"
           Witness.noArgs Stub.unreachable Hstart (list_elem_of_here _ _)).
  reflexivity.
Defined.
